(** * Address book codecs: a shallow embedding of [address_book_encoding.py]
    and of the classes of [address_book.py]

    The module registers four codecs (json, yaml, html_table, formatted_text)
    with Python's [codecs] registry and reads and writes files through them.
    This development embeds the codec functions, the registry calls and the
    two file helpers, then the [Contact] and [AddressBook] classes that use
    them, and settles the properties stated for them.

    Conventions.
    - A Python [str] is a [string]; its characters stand for the code points
      below 256.
    - A Python value that travels through the codecs is a [pyobj]; a [dict]
      keeps its items in insertion order, as CPython does.
    - A call that can raise returns an [outcome]: [Ok v], [Raise e], or
      [Unmodelled] where a library model does not cover the input. *)

From Stdlib Require Import String Ascii List Arith Lia Bool.
From stdpp Require Import base option list strings gmap.

#[local] Open Scope string_scope.
#[local] Open Scope list_scope.
#[local] Arguments String.append _ _ : simpl nomatch.
#[local] Set Warnings "-register-all".

(** ** Python values, exceptions and outcomes *)

Inductive pyobj : Type :=
  | PNone
  | PStr (s : string)
  | PList (xs : list pyobj)
  | PDict (items : list (pyobj * pyobj)).

(** An exception: the name of its class and its message. *)
Inductive exn : Type := Exn (cls : string) (msg : string).


Inductive outcome (A : Type) : Type :=
  | Ok (a : A)
  | Raise (e : exn)
  | Unmodelled.
Arguments Ok {A} a.
Arguments Raise {A} e.
Arguments Unmodelled {A}.

#[global] Instance outcome_ret : MRet outcome := fun _ a => Ok a.
#[global] Instance outcome_bind : MBind outcome := fun _ _ f m =>
  match m with
  | Ok a => f a
  | Raise e => Raise e
  | Unmodelled => Unmodelled
  end.
#[global] Instance outcome_fmap : FMap outcome := fun _ _ f m =>
  match m with
  | Ok a => Ok (f a)
  | Raise e => Raise e
  | Unmodelled => Unmodelled
  end.

(** A [for] loop whose body can raise: the accumulator is threaded through
    the items, and the first exception ends the loop. *)
Fixpoint for_each {A S : Type} (body : S -> A -> outcome S) (items : list A)
    (s : S) : outcome S :=
  match items with
  | [] => Ok s
  | x :: rest => s' ← body s x; for_each body rest s'
  end.

Definition nl : string := String "010"%char EmptyString.
Definition dquote : string := String "034"%char EmptyString.

Definition type_name (o : pyobj) : string :=
  match o with
  | PNone => "NoneType"
  | PStr _ => "str"
  | PList _ => "list"
  | PDict _ => "dict"
  end.

Definition TypeError {A} (msg : string) : outcome A := Raise (Exn "TypeError" msg).
Definition AttributeError {A} (o : pyobj) (attr : string) : outcome A :=
  Raise (Exn "AttributeError"
           ("'" +:+ type_name o +:+ "' object has no attribute '" +:+ attr +:+ "'")).
Definition IndexError {A} : outcome A :=
  Raise (Exn "IndexError" "list index out of range").

(** [len(o)] *)
Definition py_len (o : pyobj) : outcome nat :=
  match o with
  | PStr s => Ok (String.length s)
  | PList xs => Ok (length xs)
  | PDict items => Ok (length items)
  | PNone => TypeError "object of type 'NoneType' has no len()"
  end.

Fixpoint chars (s : string) : list pyobj :=
  match s with
  | EmptyString => []
  | String c s' => PStr (String c EmptyString) :: chars s'
  end.

(** [for x in o]: a list yields its elements, a dict its keys, a str its
    characters. *)
Definition py_iter (o : pyobj) : outcome (list pyobj) :=
  match o with
  | PList xs => Ok xs
  | PDict items => Ok (map fst items)
  | PStr s => Ok (chars s)
  | PNone => TypeError "'NoneType' object is not iterable"
  end.

(** [o.items()] *)
Definition py_items (o : pyobj) : outcome (list (pyobj * pyobj)) :=
  match o with
  | PDict items => Ok items
  | _ => AttributeError o "items"
  end.

(** [a + b] where the code concatenates strings. *)
Definition py_add (a b : pyobj) : outcome pyobj :=
  match a, b with
  | PStr s, PStr t => Ok (PStr (s +:+ t))
  | PStr _, _ =>
      TypeError ("can only concatenate str (not " +:+ dquote +:+ type_name b +:+ dquote +:+ ") to str")
  | PList xs, PList ys => Ok (PList (xs ++ ys))
  | PList _, _ =>
      TypeError ("can only concatenate list (not " +:+ dquote +:+ type_name b +:+ dquote
                 +:+ ") to list")
  | _, _ =>
      TypeError ("unsupported operand type(s) for +: '" +:+ type_name a +:+ "' and '"
                 +:+ type_name b +:+ "'")
  end.

(** [s += t] on a local that holds a str. *)
Definition str_iadd (s : string) (t : pyobj) : outcome string :=
  r ← py_add (PStr s) t;
  match r with
  | PStr u => Ok u
  | _ => Unmodelled
  end.

(** [xs[i]] for a list and a non-negative index. *)
Definition getitem {A} (xs : list A) (i : nat) : outcome A :=
  match xs !! i with
  | Some x => Ok x
  | None => IndexError
  end.

(** [xs[-1]] for a list that [str.split] returned, which is never empty. *)
Definition getitem_last (xs : list string) : string := List.last xs EmptyString.

(** [s.split(sep)] for a non-empty separator: the occurrences of [sep] are
    found from the left and do not overlap.  [split_go sep skip s] returns
    the fragment that is being read and the fragments after it; [skip] counts
    the characters of a separator still to be dropped. *)
Fixpoint split_go (sep : string) (skip : nat) (s : string) : string * list string :=
  match s with
  | EmptyString => (EmptyString, [])
  | String c s' =>
      match skip with
      | S k => split_go sep k s'
      | O =>
          if String.prefix sep s
          then let '(f, r) := split_go sep (String.length sep - 1) s' in
               (EmptyString, f :: r)
          else let '(f, r) := split_go sep 0 s' in (String c f, r)
      end
  end.

Definition str_split (sep s : string) : list string :=
  let '(f, r) := split_go sep 0 s in f :: r.

(** Python's [==] on the values above.  Two dicts are equal when they have
    the same keys with equal values, whatever the insertion order. *)
Fixpoint py_eqb (a b : pyobj) {struct a} : bool :=
  match a, b with
  | PNone, PNone => true
  | PStr s, PStr t => String.eqb s t
  | PList xs, PList ys =>
      (fix all2 (xs ys : list pyobj) {struct xs} : bool :=
         match xs, ys with
         | [], [] => true
         | x :: xs', y :: ys' => py_eqb x y && all2 xs' ys'
         | _, _ => false
         end) xs ys
  | PDict d, PDict e =>
      Nat.eqb (length d) (length e) &&
      (fix all (d : list (pyobj * pyobj)) {struct d} : bool :=
         match d with
         | [] => true
         | (k, v) :: d' =>
             (fix find (e : list (pyobj * pyobj)) {struct e} : bool :=
                match e with
                | [] => false
                | (k', v') :: e' => if py_eqb k k' then py_eqb v v' else find e'
                end) e && all d'
         end) d
  | _, _ => false
  end.

(** [d.get(key)] *)
Fixpoint dict_lookup (items : list (pyobj * pyobj)) (key : pyobj) : option pyobj :=
  match items with
  | [] => None
  | (k, v) :: rest => if py_eqb k key then Some v else dict_lookup rest key
  end.

Definition py_get (o : pyobj) (key : string) : outcome pyobj :=
  match o with
  | PDict items => Ok (default PNone (dict_lookup items (PStr key)))
  | _ => AttributeError o "get"
  end.

(** [str(o)], as [str.format] applies it to a field with no format spec.
    The [repr] of a list or a dict is not modelled. *)
Definition py_str (o : pyobj) : outcome string :=
  match o with
  | PStr s => Ok s
  | PNone => Ok "None"
  | PList _ | PDict _ => Unmodelled
  end.

(** ** The canonical wire shape *)

Record contact : Type := Contact {
  name : string;
  address : string;
  phone_number : string
}.

(** [{name: {'address': address, 'phone_number': phone_number}}], the literal
    the two decoders build and [Contact.to_dict] returns. *)
Definition contact_dict (name address phone_number : pyobj) : pyobj :=
  PDict [(name, PDict [(PStr "address", address); (PStr "phone_number", phone_number)])].

Definition to_dict (c : contact) : pyobj :=
  contact_dict (PStr (name c)) (PStr (address c)) (PStr (phone_number c)).

(** [AddressBook.to_dict]: the collection as a list of contact dicts. *)
Definition canonical (cs : list contact) : pyobj := PList (map to_dict cs).

(** ** The delimited-text codec *)

Definition formatted_text_encode (contact_details : pyobj) : outcome (string * nat) :=
  contacts ← py_iter contact_details;
  formatted_text ←
    for_each (fun formatted_text contact =>
      items ← py_items contact;
      for_each (fun formatted_text '(key, value) =>
        formatted_text ← str_iadd formatted_text (PStr nl);
        line ← py_add key (PStr nl);
        formatted_text ← str_iadd formatted_text line;
        sub_items ← py_items value;
        for_each (fun formatted_text '(sub_key, sub_value) =>
          line ← py_add sub_key (PStr ": ");
          line ← py_add line sub_value;
          line ← py_add line (PStr nl);
          str_iadd formatted_text line) sub_items formatted_text)
        items formatted_text)
      contacts EmptyString;
  Ok (formatted_text, String.length formatted_text).

Definition formatted_text_decode (formatted_text_str : string) : outcome (pyobj * nat) :=
  let contact_strings := str_split (nl +:+ nl) formatted_text_str in
  contacts ←
    for_each (fun contacts contact =>
      if decide (contact = EmptyString) then Ok contacts
      else
        let contact_data := str_split nl contact in
        name ← getitem contact_data 1;
        line2 ← getitem contact_data 2;
        let address := getitem_last (str_split ": " line2) in
        line3 ← getitem contact_data 3;
        let phone_number := getitem_last (str_split ": " line3) in
        Ok (contacts ++ [contact_dict (PStr name) (PStr address) (PStr phone_number)]))
      contact_strings [];
  Ok (PList contacts, length contacts).

(** ** The element tree of [lxml.etree] *)

Inductive element : Type :=
  Element (tag : string) (text : option string) (children : list element)
          (tail : option string).

Definition elem_tag (e : element) : string := let 'Element t _ _ _ := e in t.
Definition elem_text (e : element) : option string := let 'Element _ t _ _ := e in t.
Definition elem_children (e : element) : list element := let 'Element _ _ c _ := e in c.

(** Every element below [e], in document order. *)
Fixpoint descendants (e : element) : list element :=
  match e with
  | Element _ _ cs _ => flat_map (fun c => c :: descendants c) cs
  end.

(** [e.findall('.//tag')] *)
Definition findall (e : element) (tag : string) : list element :=
  filter (fun d => elem_tag d = tag) (descendants e).

(** [cell.text] as a Python value: [None] when the element has no text. *)
Definition text_obj (e : element) : pyobj :=
  match elem_text e with
  | Some s => PStr s
  | None => PNone
  end.

(** ** What the module takes from the interpreter and its libraries

    [normalizestring] and [wrap_codec_error] belong to CPython's codec
    registry and differ between versions; [json_dumps], [json_loads],
    [yaml_dump], [yaml_safe_load] are [json.dumps], [json.loads], [yaml.dump]
    and [yaml.safe_load]; [etree_parse_html s] is
    [lxml.etree.parse(io.StringIO(s), lxml.etree.HTMLParser())], giving the
    root element. *)
Class PyRuntime : Type := {
  normalizestring : string -> string;
  wrap_codec_error : string -> string -> exn -> exn;
  json_dumps : pyobj -> outcome string;
  json_loads : string -> outcome pyobj;
  yaml_dump : pyobj -> outcome string;
  yaml_safe_load : string -> outcome pyobj;
  etree_parse_html : string -> outcome element
}.

(** [codecs.CodecInfo(encode, decode, name=...)] *)
Record CodecInfo : Type := {
  codec_name : string;
  encode : pyobj -> outcome (string * nat);
  decode : string -> outcome (pyobj * nat)
}.

Section Codecs.
Context `{RT : PyRuntime}.

(** ** The structured codecs *)

Definition json_encode (obj : pyobj) : outcome (string * nat) :=
  s ← json_dumps obj;
  n ← py_len obj;
  Ok (s, n).

Definition json_decode (json_string : string) : outcome (pyobj * nat) :=
  v ← json_loads json_string;
  Ok (v, String.length json_string).

Definition json_search (encoding : string) : option CodecInfo :=
  if decide (encoding = "json")
  then Some {| codec_name := "json"; encode := json_encode; decode := json_decode |}
  else None.

Definition yaml_encode (obj : pyobj) : outcome (string * nat) :=
  s ← yaml_dump obj;
  n ← py_len obj;
  Ok (s, n).

Definition yaml_decode (yaml_string : string) : outcome (pyobj * nat) :=
  v ← yaml_safe_load yaml_string;
  Ok (v, String.length yaml_string).

Definition yaml_search (encoding : string) : option CodecInfo :=
  if decide (encoding = "yaml")
  then Some {| codec_name := "yaml"; encode := yaml_encode; decode := yaml_decode |}
  else None.

(** ** The HTML table codec *)

Definition html_table_header : string :=
  nl +:+ "    <table>" +:+ nl +:+
  "    <style>table, th, td {border: 1px solid black; border-collapse: collapse; padding: 10px}</style>"
  +:+ nl +:+
  "    <tr><th>Name</th><th>Address</th><th>Phone Number</th></tr>" +:+ nl +:+
  "    ".

(** ['<tr><td>{0}</td><td>{1}</td><td>{2}</td></tr>'.format(name, address, phone_number)] *)
Definition format_row (name address phone_number : pyobj) : outcome string :=
  s0 ← py_str name;
  s1 ← py_str address;
  s2 ← py_str phone_number;
  Ok ("<tr><td>" +:+ s0 +:+ "</td><td>" +:+ s1 +:+ "</td><td>" +:+ s2 +:+ "</td></tr>").

Definition html_table_encode (contact_details : pyobj) : outcome (string * nat) :=
  let html_table := html_table_header in
  contacts ← py_iter contact_details;
  html_table ←
    for_each (fun html_table contact =>
      items ← py_items contact;
      for_each (fun html_table '(name, value) =>
        address ← py_get value "address";
        phone_number ← py_get value "phone_number";
        table_row ← format_row name address phone_number;
        Ok (html_table +:+ table_row)) items html_table)
      contacts html_table;
  let html_table := html_table +:+ "</table>" in
  Ok (html_table, String.length html_table).

(** The body of the loop over the rows: [None] when the row is skipped. *)
Definition decode_row (row : element) : outcome (option pyobj) :=
  let row_values := findall row "td" in
  match row_values with
  | [] => Ok None
  | _ =>
      c0 ← getitem row_values 0;
      let name := text_obj c0 in
      c1 ← getitem row_values 1;
      let address := text_obj c1 in
      c2 ← getitem row_values 2;
      let phone_number := text_obj c2 in
      Ok (Some (contact_dict name address phone_number))
  end.

Definition html_table_decode (html_table_str : string) : outcome (pyobj * nat) :=
  tree ← etree_parse_html html_table_str;
  let table_rows := findall tree "tr" in
  contacts ←
    for_each (fun contacts row =>
      r ← decode_row row;
      match r with
      | None => Ok contacts
      | Some contact_dict => Ok (contacts ++ [contact_dict])
      end) table_rows [];
  Ok (PList contacts, length contacts).

Definition html_table_search (encoding : string) : option CodecInfo :=
  if decide (encoding = "html_table")
  then Some {| codec_name := "html_table"; encode := html_table_encode;
               decode := html_table_decode |}
  else None.

Definition formatted_text_search (encoding : string) : option CodecInfo :=
  if decide (encoding = "formatted_text")
  then Some {| codec_name := "formatted_text"; encode := formatted_text_encode;
               decode := formatted_text_decode |}
  else None.

(** ** The codec registry of the interpreter

    [codecs.register] appends the search function to the search path.
    [codecs.lookup] normalises the name, answers from the cache when it can,
    and otherwise asks the search functions in order; the first answer that
    is not [None] is cached and returned. *)
Record registry : Type := {
  search_path : list (string -> option CodecInfo);
  search_cache : gmap string CodecInfo
}.

Definition codecs_register (search_function : string -> option CodecInfo)
    (r : registry) : registry :=
  {| search_path := search_path r ++ [search_function];
     search_cache := search_cache r |}.

Fixpoint first_match (path : list (string -> option CodecInfo)) (key : string)
    : option CodecInfo :=
  match path with
  | [] => None
  | f :: rest =>
      match f key with
      | Some c => Some c
      | None => first_match rest key
      end
  end.

(** The lookup of the registry for a name, [_PyCodec_Lookup] of CPython. *)
Definition registry_lookup (encoding : string) (r : registry)
    : outcome CodecInfo * registry :=
  let key := normalizestring encoding in
  match search_cache r !! key with
  | Some c => (Ok c, r)
  | None =>
      match first_match (search_path r) key with
      | Some c =>
          (Ok c, {| search_path := search_path r;
                    search_cache := <[key := c]> (search_cache r) |})
      | None => (Raise (Exn "LookupError" ("unknown encoding: " +:+ encoding)), r)
      end
  end.

(** [codecs.lookup], [codecs.encode] and [codecs.decode] take the name as a
    C string: a name that holds a NUL character is refused with a
    [ValueError] before the registry is asked. *)
Fixpoint embedded_null (s : string) : bool :=
  match s with
  | EmptyString => false
  | String c r => Ascii.eqb c "000" || embedded_null r
  end.

Definition codecs_lookup (encoding : string) (r : registry)
    : outcome CodecInfo * registry :=
  if embedded_null encoding
  then (Raise (Exn "ValueError" "embedded null character"), r)
  else registry_lookup encoding r.

(** An exception that leaves the codec's own function goes through
    [wrap_codec_error]; one raised by the lookup does not. *)
Definition wrap {A} (operation encoding : string) (m : outcome A) : outcome A :=
  match m with
  | Raise e => Raise (wrap_codec_error operation encoding e)
  | _ => m
  end.

(** [codecs.encode(obj, encoding=encoding)] *)
Definition codecs_encode (obj : pyobj) (encoding : string) (r : registry)
    : outcome string * registry :=
  match codecs_lookup encoding r with
  | (Ok c, r') => (wrap "encoding" encoding (fst <$> encode c obj), r')
  | (Raise e, r') => (Raise e, r')
  | (Unmodelled, r') => (Unmodelled, r')
  end.

(** [codecs.decode(text, encoding=encoding)] *)
Definition codecs_decode (text : string) (encoding : string) (r : registry)
    : outcome pyobj * registry :=
  match codecs_lookup encoding r with
  | (Ok c, r') => (wrap "decoding" encoding (fst <$> decode c text), r')
  | (Raise e, r') => (Raise e, r')
  | (Unmodelled, r') => (Unmodelled, r')
  end.

Definition register_codecs (r : registry) : registry :=
  codecs_register formatted_text_search
    (codecs_register html_table_search
      (codecs_register yaml_search
        (codecs_register json_search r))).

(** ** The file helpers

    The process state the helpers touch: the registry and the files, a map
    from path to contents.  The files are text files on a POSIX system,
    opened with the default arguments: what is written is stored as it is,
    and what is read comes with every ["\r\n"] and every other ["\r"] turned
    into a line feed.  The encoding of the locale is taken to encode every
    character.  Opening a path for writing creates or truncates the file and
    is taken to succeed; the statements that rest on this say which file
    they open.  Failures of [open] for reading other than a missing file are
    not modelled. *)
Record world : Type := {
  codec_registry : registry;
  files : gmap string string
}.

(** What a text file gives when it is read: universal newlines. *)
Fixpoint universal_newlines (s : string) : string :=
  match s with
  | EmptyString => EmptyString
  | String c r =>
      if Ascii.eqb c "013"
      then String "010"
             match r with
             | String c' r' => if Ascii.eqb c' "010" then universal_newlines r'
                               else universal_newlines r
             | EmptyString => EmptyString
             end
      else String c (universal_newlines r)
  end.

Definition write_file (file_path encoding : string) (obj : pyobj) (w : world)
    : outcome () * world :=
  let opened := <[file_path := EmptyString]> (files w) in
  match codecs_encode obj encoding (codec_registry w) with
  | (Ok encoded_object, r') =>
      (Ok (), {| codec_registry := r'; files := <[file_path := encoded_object]> opened |})
  | (Raise e, r') => (Raise e, {| codec_registry := r'; files := opened |})
  | (Unmodelled, r') => (Unmodelled, {| codec_registry := r'; files := opened |})
  end.

Definition read_file (file_path encoding : string) (w : world)
    : outcome pyobj * world :=
  match files w !! file_path with
  | None =>
      (Raise (Exn "FileNotFoundError"
                ("[Errno 2] No such file or directory: '" +:+ file_path +:+ "'")), w)
  | Some contents =>
      let '(decoded_object, r') :=
        codecs_decode (universal_newlines contents) encoding (codec_registry w) in
      (decoded_object, {| codec_registry := r'; files := files w |})
  end.

(** [decode(encode(x))] for one codec, as [codecs.encode] and [codecs.decode]
    chain the two functions: each returns a pair and the first component is
    used. *)
Definition round_trip (c : CodecInfo) (x : pyobj) : outcome pyobj :=
  '(text, _) ← encode c x;
  '(y, _) ← decode c text;
  Ok y.

End Codecs.

(** ** A model of the runtime

    The rest of the definitions give one concrete [PyRuntime], so that the
    codecs can be run on inputs.  Each part follows the documented behaviour
    of the library it stands for and answers [Unmodelled] outside the
    fragment it covers. *)

(** *** The registry's name normalisation (CPython 3.9 and later)

    ASCII letters are lowered; every run of characters that are neither
    alphanumeric nor a dot becomes one underscore, and is dropped at the
    start of the name. *)
Definition between (lo hi : nat) (c : ascii) : bool :=
  Nat.leb lo (nat_of_ascii c) && Nat.leb (nat_of_ascii c) hi.

Definition is_upper (c : ascii) : bool := between 65 90 c.
Definition is_alnum (c : ascii) : bool :=
  between 48 57 c || between 65 90 c || between 97 122 c.
Definition to_lower (c : ascii) : ascii :=
  if is_upper c then ascii_of_nat (nat_of_ascii c + 32) else c.

Fixpoint normalize_encoding (punct started : bool) (s : string) : string :=
  match s with
  | EmptyString => EmptyString
  | String c r =>
      if is_alnum c || Ascii.eqb c "."
      then (if punct && started then "_" else EmptyString)
             +:+ String (to_lower c) (normalize_encoding false true r)
      else normalize_encoding true started r
  end.

(** *** [json.dumps] and [json.loads]

    The model covers [None], strings, lists and dicts with string or [None]
    keys, which is what [pyobj] holds.  Number literals, [true], [false],
    [NaN] and [Infinity] in a text to load are outside it, and so are escapes
    of code points from 256 on.  A [JSONDecodeError] carries its message
    without the position suffix. *)
Definition hex_digit (n : nat) : ascii :=
  if Nat.ltb n 10 then ascii_of_nat (48 + n) else ascii_of_nat (87 + n).

Definition hex_value (c : ascii) : option nat :=
  if between 48 57 c then Some (nat_of_ascii c - 48)
  else if between 97 102 c then Some (nat_of_ascii c - 87)
  else if between 65 70 c then Some (nat_of_ascii c - 55)
  else None.

(** The replacement of one character under [ensure_ascii=True]. *)
Definition escape_char (c : ascii) : string :=
  if Ascii.eqb c "034" then String "\" dquote
  else if Ascii.eqb c "\" then "\\"
  else if Ascii.eqb c "010" then "\n"
  else if Ascii.eqb c "013" then "\r"
  else if Ascii.eqb c "009" then "\t"
  else if Ascii.eqb c "008" then "\b"
  else if Ascii.eqb c "012" then "\f"
  else if between 32 126 c then String c EmptyString
  else
    let n := nat_of_ascii c in
    String "\" (String "u" (String "0" (String "0"
      (String (hex_digit (n / 16)) (String (hex_digit (n mod 16)) EmptyString))))).

Fixpoint escape (s : string) : string :=
  match s with
  | EmptyString => EmptyString
  | String c r => escape_char c +:+ escape r
  end.

Definition encode_basestring_ascii (s : string) : string :=
  dquote +:+ escape s +:+ dquote.

Fixpoint join (sep : string) (parts : list string) : string :=
  match parts with
  | [] => EmptyString
  | [p] => p
  | p :: rest => p +:+ sep +:+ join sep rest
  end.

(** A dict key as [json.dumps] writes it. *)
Definition json_key (k : pyobj) : outcome string :=
  match k with
  | PStr s => Ok (encode_basestring_ascii s)
  | PNone => Ok (encode_basestring_ascii "null")
  | PList _ | PDict _ => Unmodelled
  end.

Fixpoint dumps (o : pyobj) : outcome string :=
  match o with
  | PNone => Ok "null"
  | PStr s => Ok (encode_basestring_ascii s)
  | PList xs =>
      parts ← (fix go (xs : list pyobj) : outcome (list string) :=
                 match xs with
                 | [] => Ok []
                 | x :: rest => s ← dumps x; ss ← go rest; Ok (s :: ss)
                 end) xs;
      Ok ("[" +:+ join ", " parts +:+ "]")
  | PDict items =>
      parts ← (fix go (items : list (pyobj * pyobj)) : outcome (list string) :=
                 match items with
                 | [] => Ok []
                 | (k, v) :: rest =>
                     ks ← json_key k; s ← dumps v; ss ← go rest;
                     Ok ((ks +:+ ": " +:+ s) :: ss)
                 end) items;
      Ok ("{" +:+ join ", " parts +:+ "}")
  end.

Definition JSONDecodeError {A} (msg : string) : outcome A :=
  Raise (Exn "JSONDecodeError" msg).

Definition is_ws (c : ascii) : bool :=
  Ascii.eqb c " " || Ascii.eqb c "009" || Ascii.eqb c "010" || Ascii.eqb c "013".

Fixpoint skip_ws (s : string) : string :=
  match s with
  | String c r => if is_ws c then skip_ws r else s
  | EmptyString => s
  end.

Definition snoc (s : string) (c : ascii) : string := s +:+ String c EmptyString.

(** The character an escape letter stands for. *)
Definition backslash (e : ascii) : option ascii :=
  if Ascii.eqb e "034" then Some "034"%char
  else if Ascii.eqb e "\" then Some "\"%char
  else if Ascii.eqb e "/" then Some "/"%char
  else if Ascii.eqb e "b" then Some "008"%char
  else if Ascii.eqb e "f" then Some "012"%char
  else if Ascii.eqb e "n" then Some "010"%char
  else if Ascii.eqb e "r" then Some "013"%char
  else if Ascii.eqb e "t" then Some "009"%char
  else None.

Definition hex4 (a b c d : ascii) : option nat :=
  va ← hex_value a; vb ← hex_value b; vc ← hex_value c; vd ← hex_value d;
  Some (((va * 16 + vb) * 16 + vc) * 16 + vd).

(** [scanstring] in strict mode, from the character after the opening quote:
    the decoded string and the text after the closing quote. *)
Fixpoint scanstring (acc : string) (s : string) : outcome (string * string) :=
  match s with
  | EmptyString => JSONDecodeError "Unterminated string starting at"
  | String c r =>
      if Ascii.eqb c "034" then Ok (acc, r)
      else if Ascii.eqb c "\" then
        match r with
        | EmptyString => JSONDecodeError "Unterminated string starting at"
        | String e r' =>
            if Ascii.eqb e "u" then
              match r' with
              | String h1 (String h2 (String h3 (String h4 r''))) =>
                  match hex4 h1 h2 h3 h4 with
                  | Some n =>
                      if Nat.ltb n 256 then scanstring (snoc acc (ascii_of_nat n)) r''
                      else Unmodelled
                  | None => JSONDecodeError "Invalid \uXXXX escape"
                  end
              | _ => JSONDecodeError "Invalid \uXXXX escape"
              end
            else
              match backslash e with
              | Some ch => scanstring (snoc acc ch) r'
              | None => JSONDecodeError "Invalid \escape"
              end
        end
      else if Nat.ltb (nat_of_ascii c) 32 then JSONDecodeError "Invalid control character at"
      else scanstring (snoc acc c) r
  end.

Fixpoint drop_chars (n : nat) (s : string) : string :=
  match n, s with
  | S k, String _ r => drop_chars k r
  | _, _ => s
  end.

(** [dict(pairs)]: a repeated key keeps its first position and takes the
    last value. *)
Fixpoint dict_set (items : list (pyobj * pyobj)) (k v : pyobj) : list (pyobj * pyobj) :=
  match items with
  | [] => [(k, v)]
  | (k', v') :: rest =>
      if py_eqb k' k then (k', v) :: rest else (k', v') :: dict_set rest k v
  end.

Definition outside_json_model (s : string) : bool :=
  match s with
  | String c _ =>
      Ascii.eqb c "-" || between 48 57 c || String.prefix "true" s
      || String.prefix "false" s || String.prefix "NaN" s || String.prefix "Infinity" s
  | EmptyString => false
  end.

(** [scan_once], [JSONArray] and [JSONObject] of [json.decoder].  The fuel
    bounds the nesting and the number of items; [loads] gives the length of
    the text, which is never reached. *)
Fixpoint scan_once (fuel : nat) (s : string) : outcome (pyobj * string) :=
  match fuel with
  | O => Unmodelled
  | S fuel' =>
      match s with
      | EmptyString => JSONDecodeError "Expecting value"
      | String c r =>
          if Ascii.eqb c "034" then
            '(str, rest) ← scanstring EmptyString r; Ok (PStr str, rest)
          else if Ascii.eqb c "{" then
            let r := skip_ws r in
            match r with
            | String "}" rest => Ok (PDict [], rest)
            | String "034"%char rest => JSONObject fuel' [] rest
            | _ => JSONDecodeError "Expecting property name enclosed in double quotes"
            end
          else if Ascii.eqb c "[" then
            let r := skip_ws r in
            match r with
            | String "]" rest => Ok (PList [], rest)
            | _ => JSONArray fuel' [] r
            end
          else if String.prefix "null" s then Ok (PNone, drop_chars 4 s)
          else if outside_json_model s then Unmodelled
          else JSONDecodeError "Expecting value"
      end
  end
with JSONArray (fuel : nat) (values : list pyobj) (s : string)
    : outcome (pyobj * string) :=
  match fuel with
  | O => Unmodelled
  | S fuel' =>
      '(value, rest) ← scan_once fuel' s;
      let values := values ++ [value] in
      match skip_ws rest with
      | String "]" rest' => Ok (PList values, rest')
      | String "," rest' => JSONArray fuel' values (skip_ws rest')
      | _ => JSONDecodeError "Expecting ',' delimiter"
      end
  end
with JSONObject (fuel : nat) (pairs : list (pyobj * pyobj)) (s : string)
    : outcome (pyobj * string) :=
  match fuel with
  | O => Unmodelled
  | S fuel' =>
      '(key, rest) ← scanstring EmptyString s;
      match skip_ws rest with
      | String ":" rest' =>
          '(value, rest'') ← scan_once fuel' (skip_ws rest');
          let pairs := dict_set pairs (PStr key) value in
          match skip_ws rest'' with
          | String "}" rest3 => Ok (PDict pairs, rest3)
          | String "," rest3 =>
              match skip_ws rest3 with
              | String "034"%char rest4 => JSONObject fuel' pairs rest4
              | _ => JSONDecodeError "Expecting property name enclosed in double quotes"
              end
          | _ => JSONDecodeError "Expecting ',' delimiter"
          end
      | _ => JSONDecodeError "Expecting ':' delimiter"
      end
  end.

Definition loads (s : string) : outcome pyobj :=
  '(obj, rest) ← scan_once (S (String.length s)) (skip_ws s);
  match skip_ws rest with
  | EmptyString => Ok obj
  | _ => JSONDecodeError "Extra data"
  end.

(** *** [yaml.dump] and [yaml.safe_load]

    PyYAML is represented by the facts the statements below rely on: the
    empty list is written as a flow sequence and read back, a plain word
    loads as a string, and a one-line block mapping loads as a dict. *)
Definition yaml_dump_model (o : pyobj) : outcome string :=
  match o with
  | PList [] => Ok ("[]" +:+ nl)
  | _ => Unmodelled
  end.

Definition yaml_safe_load_model (s : string) : outcome pyobj :=
  if decide (s = "[]" +:+ nl) then Ok (PList [])
  else if decide (s = "hello") then Ok (PStr "hello")
  else if decide (s = "name: Alice") then Ok (PDict [(PStr "name", PStr "Alice")])
  else Unmodelled.

(** *** The HTML parser of lxml on the documents the encoder writes

    The model reads a single table: [<table>], then [<style>] elements and
    rows, each row a [<tr>] of [<th>] and [<td>] cells that hold text only.
    Tags carry no attributes.  Text is made of printable ASCII characters,
    tabs and line feeds, without [<] and [&]; what the parser makes of other
    characters depends on the encoding it assumes and is left out.  Blank
    text (spaces, tabs, line feeds) around the children of the
    table is dropped, as libxml2 does; blank text in a cell, text between
    cells and anything else is outside the model.  The root is the [html]
    element the parser supplies, with the table in its [body].  An element
    without text has [text = None]. *)
Inductive token : Type :=
  | TOpen (n : string)
  | TClose (n : string)
  | TText (t : string).

Definition text_char (c : ascii) : bool :=
  (between 32 126 c || Ascii.eqb c "010" || Ascii.eqb c "009")
  && negb (Ascii.eqb c "<") && negb (Ascii.eqb c "&").

Inductive lexmode : Type :=
  | InText (acc : string)
  | InTag (acc : string).

Definition flush (acc : string) (toks : list token) : list token :=
  match acc with
  | EmptyString => toks
  | _ => TText acc :: toks
  end.

Definition tag_token (acc : string) : token :=
  match acc with
  | String "/" n => TClose n
  | _ => TOpen acc
  end.

(** The tokens of a document; [toks] holds those read so far, last first. *)
Fixpoint lex (m : lexmode) (toks : list token) (s : string) : outcome (list token) :=
  match s with
  | EmptyString =>
      match m with
      | InText acc => Ok (rev (flush acc toks))
      | InTag _ => Unmodelled
      end
  | String c r =>
      match m with
      | InText acc =>
          if Ascii.eqb c "<" then lex (InTag EmptyString) (flush acc toks) r
          else if text_char c then lex (InText (snoc acc c)) toks r
          else Unmodelled
      | InTag acc =>
          if Ascii.eqb c ">" then lex (InText EmptyString) (tag_token acc :: toks) r
          else lex (InTag (snoc acc c)) toks r
      end
  end.

Fixpoint blank (t : string) : bool :=
  match t with
  | EmptyString => true
  | String c r => (Ascii.eqb c " " || Ascii.eqb c "010" || Ascii.eqb c "009") && blank r
  end.

(** Where the tree builder stands: before the table, among the children of
    the table, in a style element, in a row, in a cell, or after the table. *)
Inductive build : Type :=
  | BStart
  | BTable (done : list element)
  | BStyle (done : list element) (text : option string)
  | BRow (done : list element) (cells : list element)
  | BCell (done : list element) (cells : list element) (tag : string)
          (text : option string)
  | BEnd (table : element).

Definition is_tag (n tag : string) : bool := String.eqb n tag.

Definition build_step (b : build) (t : token) : outcome build :=
  match b, t with
  | BStart, TText t => if blank t then Ok BStart else Unmodelled
  | BStart, TOpen n => if is_tag n "table" then Ok (BTable []) else Unmodelled
  | BTable done, TText t => if blank t then Ok (BTable done) else Unmodelled
  | BTable done, TOpen n =>
      if is_tag n "style" then Ok (BStyle done None)
      else if is_tag n "tr" then Ok (BRow done [])
      else Unmodelled
  | BTable done, TClose n =>
      if is_tag n "table" then Ok (BEnd (Element "table" None done None))
      else Unmodelled
  | BStyle done None, TText t => Ok (BStyle done (Some t))
  | BStyle done text, TClose n =>
      if is_tag n "style" then Ok (BTable (done ++ [Element "style" text [] None]))
      else Unmodelled
  | BRow done cells, TOpen n =>
      if is_tag n "td" || is_tag n "th" then Ok (BCell done cells n None)
      else Unmodelled
  | BRow done cells, TClose n =>
      if is_tag n "tr" then Ok (BTable (done ++ [Element "tr" None cells None]))
      else Unmodelled
  | BCell done cells tag None, TText t =>
      if blank t then Unmodelled else Ok (BCell done cells tag (Some t))
  | BCell done cells tag text, TClose n =>
      if is_tag n tag then Ok (BRow done (cells ++ [Element tag text [] None]))
      else Unmodelled
  | _, _ => Unmodelled
  end.

Definition html_parse_model (s : string) : outcome element :=
  toks ← lex (InText EmptyString) [] s;
  b ← for_each build_step toks BStart;
  match b with
  | BEnd table => Ok (Element "html" None [Element "body" None [table] None] None)
  | _ => Unmodelled
  end.

(** *** The runtime

    From CPython 3.12 on, an exception that leaves a codec function keeps
    its class and message and gets a note; the model keeps the exception as
    it is. *)
#[global] Instance model_runtime : PyRuntime := {|
  normalizestring := normalize_encoding false false;
  wrap_codec_error := fun _ _ e => e;
  json_dumps := dumps;
  json_loads := loads;
  yaml_dump := yaml_dump_model;
  yaml_safe_load := yaml_safe_load_model;
  etree_parse_html := html_parse_model
|}.

(** The four codecs as the search functions return them. *)
Definition json_codec `{PyRuntime} : CodecInfo :=
  {| codec_name := "json"; encode := json_encode; decode := json_decode |}.
Definition yaml_codec `{PyRuntime} : CodecInfo :=
  {| codec_name := "yaml"; encode := yaml_encode; decode := yaml_decode |}.
Definition html_table_codec `{PyRuntime} : CodecInfo :=
  {| codec_name := "html_table"; encode := html_table_encode;
     decode := html_table_decode |}.
Definition formatted_text_codec : CodecInfo :=
  {| codec_name := "formatted_text"; encode := formatted_text_encode;
     decode := formatted_text_decode |}.

(** A registry with an empty search path and an empty cache.  The resolver
    of the interpreter's own text encodings is left out; it claims none of
    the format names of this module. *)
Definition fresh_registry : registry :=
  {| search_path := []; search_cache := ∅ |}.

(** Contacts and documents used as concrete inputs. *)
Definition alice : contact := Contact "Alice" "1 Main St" "555-1111".
Definition bob : contact := Contact "Bob" "2 High St" "555-2222".
Definition carol : contact := Contact "Carol" "3 Low Rd" "555-3333".

(** The contact a row yields, when it yields one: rows whose three first
    cells can be read. *)
Definition row_contact (row : element) : option pyobj :=
  match findall row "td" with
  | c0 :: c1 :: c2 :: _ => Some (contact_dict (text_obj c0) (text_obj c1) (text_obj c2))
  | _ => None
  end.

(** The shape the YAML decoder is asked to insist on: a sequence of
    single-key mappings. *)
Definition single_key_mappings (o : pyobj) : bool :=
  match o with
  | PList xs => forallb (fun x => match x with PDict [_] => true | _ => false end) xs
  | _ => false
  end.

(** [needle in hay] for strings. *)
Fixpoint str_contains (needle hay : string) : bool :=
  String.prefix needle hay ||
  match hay with
  | EmptyString => false
  | String _ rest => str_contains needle rest
  end.

(** The body of the loop of [html_table_decode] as a function of its own. *)
Definition decode_loop `{PyRuntime} (contacts : list pyobj) (row : element)
    : outcome (list pyobj) :=
  r ← decode_row row;
  match r with
  | None => Ok contacts
  | Some contact_dict => Ok (contacts ++ [contact_dict])
  end.

(** A table with a header row and one data row; one with a complete row and
    a row of a single cell; one whose only row has an empty cell. *)
Definition header_and_row_doc : string :=
  "<table><tr><th>Name</th><th>Address</th><th>Phone Number</th></tr><tr><td>Alice</td><td>1 Main St</td><td>555-1111</td></tr></table>".
Definition short_row_doc : string :=
  "<table><tr><td>Alice</td><td>1 Main St</td><td>555-1111</td></tr><tr><td>Bob</td></tr></table>".
Definition empty_cell_doc : string :=
  "<table><tr><td>Bob</td><td></td><td>555-2222</td></tr></table>".

Definition leaf (tag : string) (text : option string) : element :=
  Element tag text [] None.
Definition empty_cell_row : element :=
  Element "tr" None [leaf "td" (Some "Bob"); leaf "td" None; leaf "td" (Some "555-2222")] None.
Definition empty_cell_tree : element :=
  Element "html" None
    [Element "body" None [Element "table" None [empty_cell_row] None] None] None.

Definition header_row : element :=
  Element "tr" None
    [leaf "th" (Some "Name"); leaf "th" (Some "Address"); leaf "th" (Some "Phone Number")]
    None.
Definition alice_row : element :=
  Element "tr" None
    [leaf "td" (Some "Alice"); leaf "td" (Some "1 Main St"); leaf "td" (Some "555-1111")]
    None.
Definition bob_short_row : element := Element "tr" None [leaf "td" (Some "Bob")] None.
Definition html_root (rows : list element) : element :=
  Element "html" None [Element "body" None [Element "table" None rows None] None] None.
Definition header_and_row_tree : element := html_root [header_row; alice_row].
Definition short_row_tree : element := html_root [alice_row; bob_short_row].

(** The four search functions of the module, in the order in which
    [register_codecs] registers them. *)
Definition own_resolvers `{PyRuntime} : list (string -> option CodecInfo) :=
  [json_search; yaml_search; html_table_search; formatted_text_search].


(** The text [json.dumps] writes for one contact dict, and for a non-empty
    list of them between the brackets. *)
Definition contact_json (c : contact) : string :=
  "{" +:+ (encode_basestring_ascii (name c) +:+ ": " +:+
    ("{" +:+ ((encode_basestring_ascii "address" +:+ ": "
                 +:+ encode_basestring_ascii (address c)) +:+ ", " +:+
              (encode_basestring_ascii "phone_number" +:+ ": "
                 +:+ encode_basestring_ascii (phone_number c))) +:+ "}")) +:+ "}".

Fixpoint contacts_json (c : contact) (cs : list contact) : string :=
  match cs with
  | [] => contact_json c
  | c' :: cs' => contact_json c +:+ ", " +:+ contacts_json c' cs'
  end.

(** Field values that the HTML table can carry: text made of characters the
    parser model reads as text, with one that is not blank. *)
Fixpoint all_chars (p : ascii -> bool) (s : string) : bool :=
  match s with
  | EmptyString => true
  | String c r => p c && all_chars p r
  end.


Definition row_html (c : contact) : string :=
  "<tr><td>" +:+ name c +:+ "</td><td>" +:+ address c +:+ "</td><td>"
    +:+ phone_number c +:+ "</td></tr>".

Fixpoint rows_html (cs : list contact) : string :=
  match cs with
  | [] => EmptyString
  | c :: cs' => row_html c +:+ rows_html cs'
  end.






(** Field values that the delimited text can carry: a name that is not
    empty, no line feed in any field, and no [": "] in the address and the
    phone number. *)
Definition not_nl (c : ascii) : bool := negb (Ascii.eqb c "010").
Definition one_line (s : string) : bool := all_chars not_nl s.
Definition no_key_sep (s : string) : bool := negb (str_contains ": " s).

Definition text_plain (c : contact) : bool :=
  negb (String.eqb (name c) EmptyString)
  && one_line (name c) && one_line (address c) && one_line (phone_number c)
  && no_key_sep (address c) && no_key_sep (phone_number c).

(** The three lines of a contact, and the text of a collection. *)
Definition record_body (c : contact) : string :=
  name c +:+ nl +:+ "address: " +:+ address c +:+ nl +:+ "phone_number: "
    +:+ phone_number c.

Fixpoint records_text (cs : list contact) : string :=
  match cs with
  | [] => EmptyString
  | c :: cs' => nl +:+ record_body c +:+ nl +:+ records_text cs'
  end.

(** What the decoder makes of the second of two contacts. *)
Definition misread (c : contact) : pyobj :=
  contact_dict (PStr ("address: " +:+ address c)) (PStr (phone_number c)) (PStr EmptyString).

(** [cons_frag t l] puts [t] in front of the first fragment of [l]. *)
Definition cons_frag (t : string) (l : list string) : list string :=
  match l with
  | f :: r => (t +:+ f) :: r
  | [] => [t]
  end.

(** Two line feeds, the separator of the records. *)
Definition nn : string := nl +:+ nl.

(** The fragments of the text after the body of a contact. *)
Fixpoint frags_after (cs : list contact) : list string :=
  match cs with
  | [] => [nl]
  | c :: cs' => EmptyString :: cons_frag (record_body c) (frags_after cs')
  end.

(** The body of the loop of [formatted_text_decode] as a function of its own. *)
Definition decode_fragment (contacts : list pyobj) (contact : string)
    : outcome (list pyobj) :=
  if decide (contact = EmptyString) then Ok contacts
  else
    let contact_data := str_split nl contact in
    name ← getitem contact_data 1;
    line2 ← getitem contact_data 2;
    let address := getitem_last (str_split ": " line2) in
    line3 ← getitem contact_data 3;
    let phone_number := getitem_last (str_split ": " line3) in
    Ok (contacts ++ [contact_dict (PStr name) (PStr address) (PStr phone_number)]).

Definition line2 (c : contact) : string := "address: " +:+ address c.
Definition line3 (c : contact) : string := "phone_number: " +:+ phone_number c.

(** What [decode(encode(x))] gives for the delimited text, by the number of
    contacts. *)
Definition formatted_text_outcome (cs : list contact) : outcome pyobj :=
  match cs with
  | [] => Ok (PList [])
  | [c] => Ok (PList [to_dict c])
  | [c; c'] => Ok (PList [to_dict c; misread c'])
  | _ => IndexError
  end.

(** ** The codecs by name *)

(** The codec of the module for a normalised format name, if it has one. *)
Definition module_codec `{PyRuntime} (key : string) : option CodecInfo :=
  if decide (key = "json") then Some json_codec
  else if decide (key = "yaml") then Some yaml_codec
  else if decide (key = "html_table") then Some html_table_codec
  else if decide (key = "formatted_text") then Some formatted_text_codec
  else None.

(** ** [address_book.py]: contacts and the address book

    What the module takes from [os.path]: [path_join] is [os.path.join] and
    [path_splitext] is [os.path.splitext]; the POSIX versions are given
    further down.  What [os.scandir] yields and what [os.path.isdir] answers
    are arguments of the functions that ask for them.

    A method that changes its object returns the new value of what it
    changes; when it raises, the object it was changing is not returned, as
    no caller in the module uses it afterwards.  [filter_contacts], which
    matches names with [fnmatch], the function [address_book], which logs
    and opens the exported file, and the command line are not embedded. *)
Class OsPath : Type := {
  path_join : string -> string -> string;
  path_splitext : string -> string * string
}.

(** An entry of a directory, as [os.scandir] yields it. *)
Record DirEntry : Type := {
  entry_name : string;
  entry_path : string;
  entry_is_file : bool
}.

(** A computation on the process state that can raise. *)
Definition io (A : Type) : Type := world -> outcome A * world.

Fixpoint for_each_io {A S : Type} (body : S -> A -> io S) (items : list A) (s : S)
    : io S :=
  fun w =>
    match items with
    | [] => (Ok s, w)
    | x :: rest =>
        match body s x w with
        | (Ok s', w') => for_each_io body rest s' w'
        | (Raise e, w') => (Raise e, w')
        | (Unmodelled, w') => (Unmodelled, w')
        end
    end.

(** [s.replace(old, new)] for a non-empty [old]. *)
Definition str_replace (old new s : string) : string := join new (str_split old s).

(** [o.replace(' ', '_')] *)
Definition py_replace_spaces (o : pyobj) : outcome string :=
  match o with
  | PStr s => Ok (str_replace " " "_" s)
  | _ => AttributeError o "replace"
  end.

Fixpoint str_endswith_go (s suffix : string) (n : nat) : bool :=
  match n with
  | O => String.eqb s suffix
  | S k =>
      match s with
      | String _ r => str_endswith_go r suffix k
      | EmptyString => false
      end
  end.

(** [s.endswith(suffix)] *)
Definition str_endswith (s suffix : string) : bool :=
  str_endswith_go s suffix (String.length s - String.length suffix)
  && Nat.leb (String.length suffix) (String.length s).

(** The fields of a [Contact]; each is [None] until it is given. *)
Record ContactObject : Type := {
  _name : pyobj;
  _address : pyobj;
  _phone_number : pyobj
}.

Definition contact_formats : list (string * string) :=
  [("json", ".json"); ("yaml", ".yaml")].
Definition address_book_formats : list (string * string) :=
  [("html_table", ".html"); ("formatted_text", ".txt")].

Definition AddressBookValueError {A} (msg : string) : outcome A :=
  Raise (Exn "AddressBookValueError" msg).

(** A dict display [{key: value}] needs a hashable key. *)
Definition dict_display (key value : pyobj) : outcome pyobj :=
  match key with
  | PList _ | PDict _ =>
      TypeError ("unhashable type: '" +:+ type_name key +:+ "'")
  | _ => Ok (PDict [(key, value)])
  end.

Section AddressBook.
Context `{RT : PyRuntime} `{OS : OsPath}.

(** [Contact(name, address, phone_number)]: the constructor registers the
    codecs. *)
Definition Contact_init (name address phone_number : pyobj) (w : world)
    : ContactObject * world :=
  ({| _name := name; _address := address; _phone_number := phone_number |},
   {| codec_registry := register_codecs (codec_registry w); files := files w |}).

Definition Contact_to_dict (self : ContactObject) : outcome pyobj :=
  dict_display (_name self)
    (PDict [(PStr "address", _address self); (PStr "phone_number", _phone_number self)]).

Definition save_contact_details (self : ContactObject) (directory : string)
    : io (list string) :=
  for_each_io (fun saved_files '(encoding, extension) w =>
      match py_replace_spaces (_name self) with
      | Ok safe =>
          let file_name := safe +:+ extension in
          let file_path := path_join directory file_name in
          match Contact_to_dict self with
          | Ok contact_data =>
              match write_file file_path encoding contact_data w with
              | (Ok _, w') => (Ok (saved_files ++ [file_path]), w')
              | (Raise e, w') => (Raise e, w')
              | (Unmodelled, w') => (Unmodelled, w')
              end
          | Raise e => (Raise e, w)
          | Unmodelled => (Unmodelled, w)
          end
      | Raise e => (Raise e, w)
      | Unmodelled => (Unmodelled, w)
      end) contact_formats [].

(** The loop of [load_contact_details] over the items of the decoded
    object. *)
Definition load_fields (self : ContactObject) (contact_details : pyobj)
    : outcome ContactObject :=
  items ← py_items contact_details;
  for_each (fun self '(key, value) =>
      address ← py_get value "address";
      phone_number ← py_get value "phone_number";
      Ok {| _name := key; _address := address; _phone_number := phone_number |})
    items self.

Definition unsupported_file_message (file_extension : string) : string :=
  "file type " +:+ file_extension +:+
  " is not supported. Supported filetypes are: {'json': '.json', 'yaml': '.yaml'}".

Definition load_contact_details (self : ContactObject) (file_path : string)
    : io ContactObject :=
  fun w =>
    let file_encoding := EmptyString in
    let '(file_name, file_extension) := path_splitext file_path in
    let file_encoding :=
      fold_left (fun file_encoding '(encoding, extension) =>
                   if decide (file_extension = extension) then encoding
                   else file_encoding)
                contact_formats file_encoding in
    if decide (file_encoding = EmptyString)
    then (AddressBookValueError (unsupported_file_message file_extension), w)
    else
      match read_file file_path file_encoding w with
      | (Ok contact_details, w') => (load_fields self contact_details, w')
      | (Raise e, w') => (Raise e, w')
      | (Unmodelled, w') => (Unmodelled, w')
      end.

(** [AddressBook]: its directory and its contacts. *)
Record AddressBookObject : Type := {
  directory : string;
  all_contacts : list ContactObject
}.

(** The body of the loop of [reload_contacts]. *)
Definition reload_step (all_contacts : list ContactObject) (file_path : DirEntry)
    : io (list ContactObject) :=
  fun w =>
    if entry_is_file file_path && str_endswith (entry_name file_path) "json"
    then
      let '(contact, w1) := Contact_init PNone PNone PNone w in
      match load_contact_details contact (entry_path file_path) w1 with
      | (Ok contact, w2) => (Ok (all_contacts ++ [contact]), w2)
      | (Raise e, w2) => (Raise e, w2)
      | (Unmodelled, w2) => (Unmodelled, w2)
      end
    else (Ok all_contacts, w).

(** [reload_contacts], given the entries that [os.scandir(self.directory)]
    yields: the new value of [all_contacts]. *)
Definition reload_contacts (entries : list DirEntry) : io (list ContactObject) :=
  for_each_io reload_step entries [].

(** [AddressBook(directory)], given what [os.path.isdir(directory)] answers
    and what [os.scandir(directory)] yields. *)
Definition AddressBook_init (directory : string) (isdir : bool)
    (entries : list DirEntry) : io AddressBookObject :=
  fun w =>
    if negb isdir then (AddressBookValueError "Provide a valid directory path", w)
    else
      match reload_contacts entries w with
      | (Ok contacts, w') =>
          (Ok {| directory := directory; all_contacts := contacts |},
           {| codec_registry := register_codecs (codec_registry w'); files := files w' |})
      | (Raise e, w') => (Raise e, w')
      | (Unmodelled, w') => (Unmodelled, w')
      end.

(** [[i.to_dict() for i in self.all_contacts]] *)
Definition AddressBook_to_dict (self : AddressBookObject) : outcome pyobj :=
  dicts ← for_each (fun dicts i => d ← Contact_to_dict i; Ok (dicts ++ [d]))
             (all_contacts self) [];
  Ok (PList dicts).

Definition save_address_book (self : AddressBookObject) : io (list string) :=
  for_each_io (fun saved_files '(encoding, extension) w =>
      let file_name := "address_book" +:+ extension in
      let file_path := path_join (directory self) file_name in
      match AddressBook_to_dict self with
      | Ok address_book_data =>
          match write_file file_path encoding address_book_data w with
          | (Ok _, w') => (Ok (saved_files ++ [file_path]), w')
          | (Raise e, w') => (Raise e, w')
          | (Unmodelled, w') => (Unmodelled, w')
          end
      | Raise e => (Raise e, w)
      | Unmodelled => (Unmodelled, w)
      end) address_book_formats [].

(** [create_contact], given what [os.scandir] yields after the files of the
    new contact are written. *)
Definition create_contact (self : AddressBookObject) (name address phone_number : pyobj)
    (entries : list DirEntry) : io (ContactObject * AddressBookObject) :=
  fun w =>
    let '(new_contact, w1) := Contact_init name address phone_number w in
    match save_contact_details new_contact (directory self) w1 with
    | (Ok _, w2) =>
        match reload_contacts entries w2 with
        | (Ok contacts, w3) =>
            (Ok (new_contact, {| directory := directory self; all_contacts := contacts |}),
             w3)
        | (Raise e, w3) => (Raise e, w3)
        | (Unmodelled, w3) => (Unmodelled, w3)
        end
    | (Raise e, w2) => (Raise e, w2)
    | (Unmodelled, w2) => (Unmodelled, w2)
    end.

End AddressBook.

(** *** [posixpath.join] and [posixpath.splitext]

    [os.path] on a POSIX system, for two path components and for paths
    given as [str]. *)
Fixpoint rfind_go (c : ascii) (s : string) (i : nat) (found : option nat) : option nat :=
  match s with
  | EmptyString => found
  | String x r => rfind_go c r (S i) (if Ascii.eqb x c then Some i else found)
  end.

(** [s.rfind(c)], with [None] for -1. *)
Definition rfind (c : ascii) (s : string) : option nat := rfind_go c s 0 None.

Definition posix_join (a b : string) : string :=
  if String.prefix "/" b then b
  else if String.eqb a EmptyString || str_endswith a "/" then a +:+ b
  else a +:+ "/" +:+ b.

Definition posix_splitext (p : string) : string * string :=
  let filename_index := match rfind "/" p with Some i => S i | None => 0 end in
  match rfind "." p with
  | Some dot_index =>
      if Nat.ltb filename_index dot_index
         && negb (all_chars (fun c => Ascii.eqb c ".")
                    (String.substring filename_index (dot_index - filename_index) p))
      then (String.substring 0 dot_index p,
            String.substring dot_index (String.length p - dot_index) p)
      else (p, EmptyString)
  | None => (p, EmptyString)
  end.

#[global] Instance posix_path : OsPath := {|
  path_join := posix_join;
  path_splitext := posix_splitext
|}.

(** A [Contact] with the three fields of [c]. *)
Definition contact_object (c : contact) : ContactObject :=
  {| _name := PStr (name c); _address := PStr (address c);
     _phone_number := PStr (phone_number c) |}.

(** A [Contact] that was given no field. *)
Definition blank_contact : ContactObject :=
  {| _name := PNone; _address := PNone; _phone_number := PNone |}.

(** The path of the file [save_contact_details] writes for a name and an
    extension. *)
Definition contact_file `{OsPath} (directory name extension : string) : string :=
  path_join directory (str_replace " " "_" name +:+ extension).

(** The path of the file [save_address_book] writes for an extension. *)
Definition book_file `{OsPath} (directory extension : string) : string :=
  path_join directory ("address_book" +:+ extension).

(** A name with an underscore in place of each space. *)
Fixpoint spaces_to_underscores (s : string) : string :=
  match s with
  | EmptyString => EmptyString
  | String c r =>
      String (if Ascii.eqb c " " then "_"%char else c) (spaces_to_underscores r)
  end.

(** The dict of a [Contact], and the contacts whose fields are strings or
    [None], with the text that [str.format] writes for them. *)
Definition object_dict (o : ContactObject) : pyobj :=
  contact_dict (_name o) (_address o) (_phone_number o).

Definition str_or_none (o : pyobj) : bool :=
  match o with
  | PStr _ | PNone => true
  | PList _ | PDict _ => false
  end.

Definition printable (o : ContactObject) : bool :=
  str_or_none (_name o) && str_or_none (_address o) && str_or_none (_phone_number o).

Definition render (o : pyobj) : string :=
  match o with
  | PStr s => s
  | _ => "None"
  end.

Definition rendered (o : ContactObject) : contact :=
  Contact (render (_name o)) (render (_address o)) (render (_phone_number o)).

(** The fields that an item of a decoded contact file gives. *)
Definition item_fields (key : pyobj) (value : list (pyobj * pyobj)) : ContactObject :=
  {| _name := key;
     _address := default PNone (dict_lookup value (PStr "address"));
     _phone_number := default PNone (dict_lookup value (PStr "phone_number")) |}.

(** The entries that [reload_contacts] loads. *)
Definition is_contact_file (e : DirEntry) : bool :=
  entry_is_file e && str_endswith (entry_name e) "json".

(** The extensions that [load_contact_details] accepts. *)
Definition supported_extension (ext : string) : bool :=
  String.eqb ext ".json" || String.eqb ext ".yaml".

(** * Properties *)

(** ** Loops and outcomes *)

Lemma for_each_app {A S} (body : S -> A -> outcome S) (xs ys : list A) (s : S) :
  for_each body (xs ++ ys) s = (s' ← for_each body xs s; for_each body ys s').
Proof.
  revert s. induction xs as [|x xs IH]; intros s; simpl; [reflexivity|].
  destruct (body s x); simpl; auto.
Qed.

(** ** The rows of a parsed table *)

Section HtmlDecode.
Context `{RT : PyRuntime}.

Lemma decode_row_none (row : element) :
  findall row "td" = [] -> decode_row row = Ok None.
Proof. unfold decode_row. intros ->. reflexivity. Qed.

Lemma decode_row_three (row c0 c1 c2 : element) (rest : list element) :
  findall row "td" = c0 :: c1 :: c2 :: rest ->
  decode_row row = Ok (Some (contact_dict (text_obj c0) (text_obj c1) (text_obj c2))).
Proof. unfold decode_row. intros ->. reflexivity. Qed.

Lemma decode_row_short (row : element) :
  1 <= length (findall row "td") <= 2 -> decode_row row = IndexError.
Proof.
  unfold decode_row. destruct (findall row "td") as [|c0 [|c1 [|c2 rest]]]; simpl;
    intros; try lia; reflexivity.
Qed.

Lemma decode_loop_none (acc : list pyobj) (row : element) :
  findall row "td" = [] -> decode_loop acc row = Ok acc.
Proof. intros E. unfold decode_loop. rewrite (decode_row_none _ E). reflexivity. Qed.

Lemma decode_loop_three (acc : list pyobj) (row c0 c1 c2 : element) (rest : list element) :
  findall row "td" = c0 :: c1 :: c2 :: rest ->
  decode_loop acc row = Ok (acc ++ [contact_dict (text_obj c0) (text_obj c1) (text_obj c2)]).
Proof.
  intros E. unfold decode_loop. rewrite (decode_row_three _ _ _ _ _ E). reflexivity.
Qed.

Lemma decode_loop_index_error (acc : list pyobj) (row : element) :
  1 <= length (findall row "td") <= 2 -> decode_loop acc row = IndexError.
Proof. intros E. unfold decode_loop. rewrite (decode_row_short _ E). reflexivity. Qed.

Lemma html_table_decode_unfold (doc : string) (tree : element) :
  etree_parse_html doc = Ok tree ->
  html_table_decode doc =
    (contacts ← for_each decode_loop (findall tree "tr") [];
     Ok (PList contacts, length contacts)).
Proof. unfold html_table_decode. intros ->. reflexivity. Qed.

(** Rows with no cell or with three cells and more: the loop collects one
    contact for each row that has cells. *)
Lemma decode_loop_full (rows : list element) (acc : list pyobj) :
  Forall (fun row => length (findall row "td") = 0 \/ 3 <= length (findall row "td")) rows ->
  for_each decode_loop rows acc = Ok (acc ++ omap row_contact rows).
Proof.
  revert acc. induction rows as [|row rows IH]; intros acc Hrows.
  - cbn. rewrite app_nil_r. reflexivity.
  - inversion Hrows as [|? ? Hrow Hrest]; subst. cbn [for_each omap list_omap].
    unfold row_contact at 1.
    destruct (findall row "td") as [|c0 [|c1 [|c2 rest]]] eqn:E; cbn in Hrow;
      try (exfalso; lia).
    + rewrite (decode_loop_none _ _ E). cbn. apply IH; assumption.
    + rewrite (decode_loop_three _ _ _ _ _ _ E). cbn. rewrite IH by assumption.
      rewrite <- app_assoc. reflexivity.
Qed.

(** A row with one or two cells ends the loop with an [IndexError], wherever
    it stands. *)
Lemma decode_loop_short (rows : list element) (acc : list pyobj) :
  Exists (fun row => 1 <= length (findall row "td") <= 2) rows ->
  for_each decode_loop rows acc = IndexError.
Proof.
  revert acc. induction rows as [|row rows IH]; intros acc Hex.
  - inversion Hex.
  - cbn [for_each].
    destruct (findall row "td") as [|c0 [|c1 [|c2 rest]]] eqn:E.
    + rewrite (decode_loop_none _ _ E). cbn. apply IH.
      inversion Hex as [? ? H|]; subst; [rewrite E in H; cbn in H; lia | assumption].
    + rewrite decode_loop_index_error by (rewrite E; cbn; lia). reflexivity.
    + rewrite decode_loop_index_error by (rewrite E; cbn; lia). reflexivity.
    + rewrite (decode_loop_three _ _ _ _ _ _ E). cbn. apply IH.
      inversion Hex as [? ? H|]; subst; [rewrite E in H; cbn in H; lia | assumption].
Qed.

End HtmlDecode.

(** ** The HTML table decoder on parsed documents *)

(** C9. A document whose rows are a header row without [td] cells followed by
    one data row of three [td] cells decodes to exactly one contact, built
    from the cells of the data row in the order name, address, phone number:
    the text of the first cell is the key, and the texts of the second and
    the third are the values of ['address'] and ['phone_number']. *)
Theorem html_decode_header_then_row `{PyRuntime} (doc : string)
    (tree hdr row c0 c1 c2 : element) :
  etree_parse_html doc = Ok tree ->
  findall tree "tr" = [hdr; row] ->
  findall hdr "td" = [] ->
  findall row "td" = [c0; c1; c2] ->
  html_table_decode doc =
    Ok (PList [PDict [(from_option PStr PNone (elem_text c0),
                       PDict [(PStr "address", from_option PStr PNone (elem_text c1));
                              (PStr "phone_number",
                               from_option PStr PNone (elem_text c2))])]],
        1).
Proof.
  intros Hparse Hrows Hhdr Hrow.
  rewrite (html_table_decode_unfold _ _ Hparse), Hrows.
  cbn [for_each]. rewrite (decode_loop_none _ _ Hhdr). cbn.
  rewrite (decode_loop_three _ _ _ _ _ _ Hrow). unfold contact_dict, text_obj.
  destruct (elem_text c0), (elem_text c1), (elem_text c2); reflexivity.
Qed.

Lemma html_decode_header_then_row_witness :
  html_table_decode header_and_row_doc =
    Ok (PList [PDict [(PStr "Alice",
                       PDict [(PStr "address", PStr "1 Main St");
                              (PStr "phone_number", PStr "555-1111")])]],
        1).
Proof.
  apply (html_decode_header_then_row header_and_row_doc
           (Element "html" None [Element "body" None [Element "table" None
              [Element "tr" None [Element "th" (Some "Name") [] None;
                                  Element "th" (Some "Address") [] None;
                                  Element "th" (Some "Phone Number") [] None] None;
               Element "tr" None [Element "td" (Some "Alice") [] None;
                                  Element "td" (Some "1 Main St") [] None;
                                  Element "td" (Some "555-1111") [] None] None]
              None] None] None)
           (Element "tr" None [Element "th" (Some "Name") [] None;
                               Element "th" (Some "Address") [] None;
                               Element "th" (Some "Phone Number") [] None] None)
           (Element "tr" None [Element "td" (Some "Alice") [] None;
                               Element "td" (Some "1 Main St") [] None;
                               Element "td" (Some "555-1111") [] None] None)
           (Element "td" (Some "Alice") [] None)
           (Element "td" (Some "1 Main St") [] None)
           (Element "td" (Some "555-1111") [] None));
    vm_compute; reflexivity.
Defined.

(** C10. A row that the decoder processes yields the contact built from its
    first three cells, and a cell without text gives [None] for its field,
    not the empty string; a document with such a cell decodes to a
    collection that holds [None]. *)
Theorem html_decode_empty_cell_is_None `{PyRuntime} (doc : string)
    (tree row c0 c1 c2 : element) (before after rest : list element) :
  etree_parse_html doc = Ok tree ->
  findall tree "tr" = before ++ row :: after ->
  Forall (fun r => length (findall r "td") = 0 \/ 3 <= length (findall r "td"))
         (before ++ row :: after) ->
  findall row "td" = c0 :: c1 :: c2 :: rest ->
  exists n a p : pyobj,
    html_table_decode doc =
      Ok (PList (omap row_contact before
                 ++ PDict [(n, PDict [(PStr "address", a); (PStr "phone_number", p)])]
                 :: omap row_contact after),
          length (omap row_contact before
                  ++ PDict [(n, PDict [(PStr "address", a); (PStr "phone_number", p)])]
                  :: omap row_contact after))
    /\ (elem_text c0 = None -> n = PNone)
    /\ (elem_text c1 = None -> a = PNone)
    /\ (elem_text c2 = None -> p = PNone)
    /\ (forall s, elem_text c0 = Some s -> n = PStr s)
    /\ (forall s, elem_text c1 = Some s -> a = PStr s)
    /\ (forall s, elem_text c2 = Some s -> p = PStr s).
Proof.
  intros Hparse Hrows Hall Hrow.
  exists (text_obj c0), (text_obj c1), (text_obj c2).
  split.
  - rewrite (html_table_decode_unfold _ _ Hparse), Hrows.
    rewrite (decode_loop_full _ _ Hall). cbn [app mbind outcome_bind].
    rewrite omap_app. cbn [omap list_omap].
    assert (Hc : row_contact row = Some (contact_dict (text_obj c0) (text_obj c1) (text_obj c2)))
      by (unfold row_contact; rewrite Hrow; reflexivity).
    rewrite Hc. reflexivity.
  - unfold text_obj.
    repeat split; try (intros ->; reflexivity); intros s ->; reflexivity.
Qed.

Lemma html_decode_empty_cell_is_None_witness :
  html_table_decode empty_cell_doc =
    Ok (PList [PDict [(PStr "Bob",
                       PDict [(PStr "address", PNone);
                              (PStr "phone_number", PStr "555-2222")])]],
        1).
Proof.
  assert (Hparse : etree_parse_html empty_cell_doc = Ok empty_cell_tree)
    by (vm_compute; reflexivity).
  assert (Hrows : findall empty_cell_tree "tr" = [] ++ empty_cell_row :: [])
    by (vm_compute; reflexivity).
  assert (Hall : Forall (fun r => length (findall r "td") = 0 \/ 3 <= length (findall r "td"))
                        ([] ++ empty_cell_row :: []))
    by (repeat constructor).
  assert (Hrow : findall empty_cell_row "td" =
                 leaf "td" (Some "Bob") :: leaf "td" None :: leaf "td" (Some "555-2222") :: [])
    by (vm_compute; reflexivity).
  destruct (html_decode_empty_cell_is_None _ _ _ _ _ _ _ _ _ Hparse Hrows Hall Hrow)
    as (n & a & p & Hdec & _ & Ha & _ & Hn & _ & Hp).
  rewrite Hdec, (Hn "Bob"), (Ha eq_refl), (Hp "555-2222") by reflexivity. reflexivity.
Defined.

(** C2 as stated fails on a document with a complete row followed by a row
    of one cell: the decoder raises [IndexError] and returns no contact. *)
Lemma html_decode_short_row_raises :
  html_table_decode short_row_doc = IndexError.
Proof. vm_compute. reflexivity. Qed.

(** C2, amended. Rows without [td] cells are skipped, and when every other
    row has three cells or more the decoder returns one contact for each of
    them; a row with one or two [td] cells is not skipped: the decoder
    raises [IndexError]. *)
Theorem html_decode_rows `{PyRuntime} (doc : string) (tree : element) :
  etree_parse_html doc = Ok tree ->
  (Forall (fun row => length (findall row "td") = 0 \/ 3 <= length (findall row "td"))
          (findall tree "tr") ->
   html_table_decode doc =
     Ok (PList (omap row_contact (findall tree "tr")),
         length (omap row_contact (findall tree "tr"))))
  /\ (Exists (fun row => 1 <= length (findall row "td") <= 2) (findall tree "tr") ->
      html_table_decode doc = IndexError).
Proof.
  intros Hparse. rewrite (html_table_decode_unfold _ _ Hparse). split; intros Hrows.
  - rewrite (decode_loop_full _ _ Hrows). reflexivity.
  - rewrite (decode_loop_short _ _ Hrows). reflexivity.
Qed.

Lemma html_decode_rows_witness :
  html_table_decode header_and_row_doc = Ok (PList [to_dict alice], 1)
  /\ html_table_decode short_row_doc = IndexError.
Proof.
  split.
  - assert (Hparse : etree_parse_html header_and_row_doc = Ok header_and_row_tree)
      by (vm_compute; reflexivity).
    destruct (html_decode_rows _ _ Hparse) as [Hfull _].
    rewrite Hfull; [vm_compute; reflexivity|].
    change (findall header_and_row_tree "tr") with [header_row; alice_row].
    apply List.Forall_cons; [left; reflexivity|].
    apply List.Forall_cons; [right; vm_compute; lia|]. apply List.Forall_nil.
  - assert (Hparse : etree_parse_html short_row_doc = Ok short_row_tree)
      by (vm_compute; reflexivity).
    destruct (html_decode_rows _ _ Hparse) as [_ Hshort].
    apply Hshort.
    change (findall short_row_tree "tr") with [alice_row; bob_short_row].
    apply List.Exists_cons_tl, List.Exists_cons_hd. vm_compute. lia.
Defined.

(** ** The YAML decoder *)

(** C3 as stated fails: a bare scalar and a top-level mapping are returned
    as parsed, and no exception is raised. *)
Lemma yaml_decode_accepts_other_shapes :
  yaml_decode "hello" = Ok (PStr "hello", 5)
  /\ single_key_mappings (PStr "hello") = false
  /\ yaml_decode "name: Alice" = Ok (PDict [(PStr "name", PStr "Alice")], 11)
  /\ single_key_mappings (PDict [(PStr "name", PStr "Alice")]) = false.
Proof. repeat split. Qed.

(** ** The registry *)

Section Registry.
Context `{RT : PyRuntime}.

Lemma first_match_app (p q : list (string -> option CodecInfo)) (key : string) :
  first_match (p ++ q) key =
    match first_match p key with
    | Some c => Some c
    | None => first_match q key
    end.
Proof.
  induction p as [|f p IH]; cbn; [reflexivity|].
  destruct (f key); [reflexivity | exact IH].
Qed.


Lemma register_codecs_path (r : registry) :
  search_path (register_codecs r) = search_path r ++ own_resolvers.
Proof.
  unfold register_codecs, codecs_register, own_resolvers. cbn.
  rewrite <- !app_assoc. reflexivity.
Qed.

Lemma register_codecs_cache (r : registry) :
  search_cache (register_codecs r) = search_cache r.
Proof. reflexivity. Qed.

Lemma lookup_plain (r : registry) (encoding : string) :
  embedded_null encoding = false ->
  codecs_lookup encoding r = registry_lookup encoding r.
Proof. intros Hnul. unfold codecs_lookup. rewrite Hnul. reflexivity. Qed.



Lemma first_match_replicate (l : list (string -> option CodecInfo)) (key : string)
    (n : nat) :
  first_match (concat (replicate (S n) l)) key = first_match l key.
Proof.
  induction n as [|n IH].
  - cbn. rewrite app_nil_r. reflexivity.
  - change (concat (replicate (S (S n)) l)) with (l ++ concat (replicate (S n) l)).
    rewrite first_match_app, IH. destruct (first_match l key); reflexivity.
Qed.

Lemma concat_replicate_snoc {A} (l : list A) (n : nat) :
  concat (replicate n l) ++ l = concat (replicate (S n) l).
Proof.
  induction n as [|n IH]; cbn [replicate concat] in *.
  - rewrite app_nil_r. reflexivity.
  - rewrite <- app_assoc, IH. reflexivity.
Qed.

Lemma register_codecs_iter_path (n : nat) (r : registry) :
  search_path (Nat.iter n register_codecs r) =
    search_path r ++ concat (replicate n own_resolvers).
Proof.
  induction n as [|n IH].
  - cbn. rewrite app_nil_r. reflexivity.
  - rewrite Nat.iter_succ, register_codecs_path, IH, <- app_assoc, concat_replicate_snoc.
    reflexivity.
Qed.

Lemma register_codecs_iter_cache (n : nat) (r : registry) :
  search_cache (Nat.iter n register_codecs r) = search_cache r.
Proof.
  induction n as [|n IH]; [reflexivity|].
  rewrite Nat.iter_succ, register_codecs_cache. exact IH.
Qed.

End Registry.

(** C3, amended. The YAML decoder makes no check of the shape: whatever
    value [yaml.safe_load] parses from the text is returned as it is, by
    [yaml_decode] and by [codecs.decode] with the registered codec. *)
Theorem yaml_decode_returns_parsed `{PyRuntime} (r : registry)
    (yaml_string : string) (v : pyobj) :
  yaml_safe_load yaml_string = Ok v ->
  normalizestring "yaml" = "yaml" ->
  search_cache r !! "yaml" = None ->
  first_match (search_path r) "yaml" = None ->
  yaml_decode yaml_string = Ok (v, String.length yaml_string)
  /\ fst (codecs_decode yaml_string "yaml" (register_codecs r)) = Ok v.
Proof.
  intros Hload Hnorm Hcache Hpath.
  assert (Hdec : yaml_decode yaml_string = Ok (v, String.length yaml_string))
    by (unfold yaml_decode; rewrite Hload; reflexivity).
  split; [exact Hdec|].
  unfold codecs_decode. rewrite (lookup_plain _ "yaml" eq_refl). unfold registry_lookup.
  rewrite Hnorm, register_codecs_cache, Hcache, register_codecs_path, first_match_app, Hpath.
  change (first_match own_resolvers "yaml") with (Some yaml_codec).
  cbn [fst]. change (decode yaml_codec) with yaml_decode. rewrite Hdec. reflexivity.
Qed.

Lemma yaml_decode_returns_parsed_witness :
  yaml_decode "hello" = Ok (PStr "hello", 5)
  /\ fst (codecs_decode "hello" "yaml" (register_codecs fresh_registry)) = Ok (PStr "hello").
Proof.
  apply (yaml_decode_returns_parsed fresh_registry "hello" (PStr "hello")); reflexivity.
Defined.




(** C5 as stated fails: after a second call of [register_codecs] the search
    path holds each of the four resolvers twice. *)
Lemma register_codecs_twice_duplicates :
  search_path (register_codecs (register_codecs fresh_registry)) =
    own_resolvers ++ own_resolvers
  /\ length (search_path (register_codecs (register_codecs fresh_registry))) = 8
  /\ ~ NoDup (search_path (register_codecs (register_codecs fresh_registry))).
Proof.
  split; [reflexivity|]. split; [reflexivity|].
  intros Hnodup.
  change (search_path (register_codecs (register_codecs fresh_registry)))
    with (json_search :: [yaml_search; html_table_search; formatted_text_search;
                          json_search; yaml_search; html_table_search;
                          formatted_text_search]) in Hnodup.
  apply NoDup_cons in Hnodup. destruct Hnodup as [Hnotin _].
  apply Hnotin. do 3 apply list_elem_of_further. apply list_elem_of_here.
Qed.

(** C5, amended. Every further call of [register_codecs] appends the four
    resolvers once more, after the entries that are there, so from the
    second call on the search path holds them several times; the cache is
    untouched, and every format name resolves as it did after the first
    call. *)
Theorem register_codecs_repeated `{PyRuntime} (n : nat) (r : registry) :
  search_path (Nat.iter (S (S n)) register_codecs r) =
    search_path (register_codecs r) ++ concat (replicate (S n) own_resolvers)
  /\ search_cache (Nat.iter (S (S n)) register_codecs r) =
       search_cache (register_codecs r)
  /\ forall encoding : string,
       fst (codecs_lookup encoding (Nat.iter (S (S n)) register_codecs r)) =
       fst (codecs_lookup encoding (register_codecs r)).
Proof.
  assert (Hpath : search_path (Nat.iter (S (S n)) register_codecs r) =
                  search_path (register_codecs r) ++ concat (replicate (S n) own_resolvers)).
  { rewrite register_codecs_iter_path, register_codecs_path, <- app_assoc. reflexivity. }
  assert (Hcache : search_cache (Nat.iter (S (S n)) register_codecs r) =
                   search_cache (register_codecs r))
    by (rewrite register_codecs_iter_cache; reflexivity).
  split; [exact Hpath|]. split; [exact Hcache|].
  intros encoding. unfold codecs_lookup.
  destruct (embedded_null encoding); [reflexivity|].
  unfold registry_lookup. rewrite Hcache, Hpath.
  destruct (search_cache (register_codecs r) !! normalizestring encoding) as [c|];
    [reflexivity|].
  rewrite first_match_app, first_match_replicate.
  destruct (first_match (search_path (register_codecs r)) (normalizestring encoding))
    as [c|] eqn:Hfirst; [reflexivity|].
  rewrite register_codecs_path, first_match_app in Hfirst.
  destruct (first_match (search_path r) (normalizestring encoding)); [discriminate|].
  rewrite Hfirst. reflexivity.
Qed.

(** ** The empty collection *)

(** C8. With each of the four codecs, the empty collection is encoded to a
    text that decodes to the empty collection. *)
Theorem empty_collection_round_trip :
  round_trip json_codec (canonical []) = Ok (PList [])
  /\ round_trip yaml_codec (canonical []) = Ok (PList [])
  /\ round_trip html_table_codec (canonical []) = Ok (PList [])
  /\ round_trip formatted_text_codec (canonical []) = Ok (PList []).
Proof. repeat split; vm_compute; reflexivity. Qed.

(** ** Strings *)

Lemma append_assoc (a b c : string) : (a +:+ b) +:+ c = a +:+ (b +:+ c).
Proof. induction a as [|x a IH]; cbn; [reflexivity | rewrite IH; reflexivity]. Qed.

Lemma append_nil_r (a : string) : a +:+ EmptyString = a.
Proof. induction a as [|x a IH]; cbn; [reflexivity | rewrite IH; reflexivity]. Qed.

Lemma length_append (a b : string) :
  String.length (a +:+ b) = String.length a + String.length b.
Proof. induction a as [|x a IH]; cbn; [reflexivity | rewrite IH; reflexivity]. Qed.

Lemma snoc_append (acc : string) (c : ascii) (s : string) :
  snoc acc c +:+ s = acc +:+ String c s.
Proof. unfold snoc. rewrite append_assoc. reflexivity. Qed.

(** ** The JSON codec on canonical collections *)

Lemma scanstring_escape_char (c : ascii) (acc rest : string) :
  scanstring acc (escape_char c +:+ rest) = scanstring (snoc acc c) rest.
Proof.
  destruct c as [[] [] [] [] [] [] [] []]; reflexivity.
Qed.

Lemma scanstring_escape (s acc rest : string) :
  scanstring acc (escape s +:+ String "034" rest) = Ok (acc +:+ s, rest).
Proof.
  revert acc. induction s as [|c s IH]; intros acc.
  - cbn. rewrite append_nil_r. reflexivity.
  - cbn [escape]. rewrite append_assoc, scanstring_escape_char, IH, snoc_append.
    reflexivity.
Qed.

Lemma dumps_to_dict (c : contact) : dumps (to_dict c) = Ok (contact_json c).
Proof. reflexivity. Qed.

Lemma scan_once_contact (c : contact) (k : nat) (rest : string) :
  scan_once (6 + k) (contact_json c +:+ rest) = Ok (to_dict c, rest).
Proof.
  unfold contact_json, encode_basestring_ascii, dquote.
  rewrite !append_assoc. cbn [append].
  do 5 (cbn -[escape append]; rewrite scanstring_escape).
  destruct c; reflexivity.
Qed.

Lemma join_cons_cons (sep x y : string) (l : list string) :
  join sep (x :: y :: l) = x +:+ sep +:+ join sep (y :: l).
Proof. reflexivity. Qed.

Lemma join_contacts (c : contact) (cs : list contact) :
  join ", " (map contact_json (c :: cs)) = contacts_json c cs.
Proof.
  revert c. induction cs as [|c' cs IH]; intros c; [reflexivity|].
  change (map contact_json (c :: c' :: cs))
    with (contact_json c :: contact_json c' :: map contact_json cs).
  rewrite join_cons_cons. change (contact_json c' :: map contact_json cs)
    with (map contact_json (c' :: cs)). rewrite IH. reflexivity.
Qed.

Lemma JSONArray_step (fuel : nat) (values : list pyobj) (s : string) :
  JSONArray (S fuel) values s =
    ('(value, rest) ← scan_once fuel s;
     match skip_ws rest with
     | String "]" rest' => Ok (PList (values ++ [value]), rest')
     | String "," rest' => JSONArray fuel (values ++ [value]) (skip_ws rest')
     | _ => JSONDecodeError "Expecting ',' delimiter"
     end).
Proof. reflexivity. Qed.

Lemma skip_ws_contacts (c : contact) (cs : list contact) (rest : string) :
  skip_ws (contacts_json c cs +:+ rest) = contacts_json c cs +:+ rest.
Proof. destruct cs; reflexivity. Qed.

Lemma JSONArray_contacts (cs : list contact) (c : contact) (k : nat)
    (values : list pyobj) (rest : string) :
  JSONArray (7 + length cs + k) values (contacts_json c cs +:+ String "]" rest) =
    Ok (PList (values ++ map to_dict (c :: cs)), rest).
Proof.
  revert c values. induction cs as [|c' cs IH]; intros c values.
  - change (7 + length [] + k) with (S (6 + k)).
    rewrite JSONArray_step. cbn [contacts_json].
    rewrite scan_once_contact. reflexivity.
  - change (7 + length (c' :: cs) + k) with (S (6 + S (length cs + k))).
    rewrite JSONArray_step. cbn [contacts_json].
    rewrite !append_assoc, scan_once_contact.
    cbn [mbind outcome_bind].
    change (", " +:+ contacts_json c' cs +:+ String "]" rest)
      with (String "," (String " " (contacts_json c' cs +:+ String "]" rest))).
    change (skip_ws (String "," ?x)) with (String "," x).
    cbv iota beta.
    change (skip_ws (String " " ?x)) with (skip_ws x).
    rewrite skip_ws_contacts.
    change (6 + S (length cs + k)) with (7 + length cs + k).
    rewrite IH, <- app_assoc. reflexivity.
Qed.

Lemma dumps_canonical (cs : list contact) :
  dumps (canonical cs) = Ok ("[" +:+ join ", " (map contact_json cs) +:+ "]").
Proof.
  unfold canonical. cbn [dumps].
  assert (Hparts : forall l : list contact,
    (fix go (xs : list pyobj) : outcome (list string) :=
       match xs with
       | [] => Ok []
       | x :: rest => s ← dumps x; ss ← go rest; Ok (s :: ss)
       end) (map to_dict l) = Ok (map contact_json l)).
  { induction l as [|c l IH]; [reflexivity|].
    cbn [map]. rewrite dumps_to_dict. cbn [mbind outcome_bind]. rewrite IH. reflexivity. }
  rewrite Hparts. reflexivity.
Qed.

Lemma length_contact_json (c : contact) : 7 <= String.length (contact_json c).
Proof.
  unfold contact_json. rewrite !length_append. cbn [String.length]. lia.
Qed.

Lemma length_contacts_json (c : contact) (cs : list contact) :
  7 + length cs <= String.length (contacts_json c cs).
Proof.
  revert c. induction cs as [|c' cs IH]; intros c; cbn [contacts_json length].
  - pose proof (length_contact_json c). lia.
  - rewrite !length_append. specialize (IH c'). cbn [String.length]. lia.
Qed.

Lemma scan_once_list (fuel : nat) (c : contact) (cs : list contact) (rest : string) :
  scan_once (S fuel) (String "[" (contacts_json c cs +:+ rest)) =
    JSONArray fuel [] (contacts_json c cs +:+ rest).
Proof. destruct cs; reflexivity. Qed.

Lemma loads_dumps_canonical (cs : list contact) :
  (s ← dumps (canonical cs); loads s) = Ok (canonical cs).
Proof.
  rewrite dumps_canonical. cbn [mbind outcome_bind].
  destruct cs as [|c cs]; [reflexivity|].
  rewrite join_contacts. unfold loads.
  change ("[" +:+ contacts_json c cs +:+ "]") with (String "[" (contacts_json c cs +:+ "]")).
  change (skip_ws (String "[" ?x)) with (String "[" x).
  rewrite scan_once_list.
  pose proof (length_contacts_json c cs) as Hlen.
  cbn [String.length]. rewrite length_append.
  replace (S (String.length (contacts_json c cs) + String.length "]"))
    with (7 + length cs + (S (String.length (contacts_json c cs) + String.length "]")
                           - 7 - length cs)) by lia.
  rewrite JSONArray_contacts. reflexivity.
Qed.



(** ** The HTML table codec on canonical collections *)

Lemma html_table_encode_canonical (cs : list contact) :
  html_table_encode (canonical cs) =
    Ok (html_table_header +:+ rows_html cs +:+ "</table>",
        String.length (html_table_header +:+ rows_html cs +:+ "</table>")).
Proof.
  unfold html_table_encode, canonical. cbn [py_iter mbind outcome_bind].
  match goal with |- context [for_each ?f (map to_dict cs) _] => set (body := f) end.
  assert (Hbody : forall acc c, body acc (to_dict c) = Ok (acc +:+ row_html c))
    by reflexivity.
  assert (Hloop : forall acc,
    for_each body (map to_dict cs) acc = Ok (acc +:+ rows_html cs)).
  { clearbody body. induction cs as [|c cs IH]; intros acc.
    - cbn. rewrite append_nil_r. reflexivity.
    - cbn [map for_each rows_html]. rewrite Hbody. cbn [mbind outcome_bind].
      rewrite IH, append_assoc. reflexivity. }
  rewrite Hloop. cbn [mbind outcome_bind]. rewrite append_assoc. reflexivity.
Qed.




























(** ** The delimited-text codec on canonical collections *)

Lemma formatted_text_encode_canonical (cs : list contact) :
  formatted_text_encode (canonical cs) =
    Ok (records_text cs, String.length (records_text cs)).
Proof.
  unfold formatted_text_encode, canonical. cbn [py_iter mbind outcome_bind].
  match goal with |- context [for_each ?f (map to_dict cs) _] => set (body := f) end.
  assert (Hbody : forall acc c,
    body acc (to_dict c) = Ok (acc +:+ nl +:+ record_body c +:+ nl)).
  { intros acc c. unfold body, to_dict, contact_dict, record_body. cbn.
    unfold nl. rewrite !append_assoc. cbn [append]. rewrite ?append_assoc.
    cbn [append]. reflexivity. }
  assert (Hloop : forall acc,
    for_each body (map to_dict cs) acc = Ok (acc +:+ records_text cs)).
  { clearbody body. induction cs as [|c cs IH]; intros acc.
    - cbn. rewrite append_nil_r. reflexivity.
    - cbn [map for_each records_text]. rewrite Hbody. cbn [mbind outcome_bind].
      rewrite IH, !append_assoc. reflexivity. }
  rewrite Hloop. reflexivity.
Qed.

(** ** [str.split] *)

Lemma prefix_head_differs (s0 c : ascii) (sep' x : string) :
  Ascii.eqb c s0 = false -> String.prefix (String s0 sep') (String c x) = false.
Proof.
  intros Hc. cbn. destruct (ascii_dec s0 c) as [->|]; [|reflexivity].
  rewrite Ascii.eqb_refl in Hc. discriminate.
Qed.

(** A run of characters that differ from the first character of the
    separator stays in the fragment that is being read. *)
Lemma split_go_run (s0 : ascii) (sep' t y : string) :
  all_chars (fun c => negb (Ascii.eqb c s0)) t = true ->
  split_go (String s0 sep') 0 (t +:+ y) =
    let '(f, r) := split_go (String s0 sep') 0 y in (t +:+ f, r).
Proof.
  induction t as [|c t IH]; intros Ht.
  - cbn [append]. destruct (split_go (String s0 sep') 0 y). reflexivity.
  - cbn [all_chars] in Ht. apply andb_true_iff in Ht. destruct Ht as [Hc Ht].
    apply negb_true_iff in Hc.
    cbn [append split_go]. rewrite (prefix_head_differs _ _ _ _ Hc), (IH Ht).
    destruct (split_go (String s0 sep') 0 y). reflexivity.
Qed.

Lemma str_split_run (s0 : ascii) (sep' t y : string) :
  all_chars (fun c => negb (Ascii.eqb c s0)) t = true ->
  str_split (String s0 sep') (t +:+ y) = cons_frag t (str_split (String s0 sep') y).
Proof.
  intros Ht. unfold str_split. rewrite (split_go_run _ _ _ _ Ht).
  destruct (split_go (String s0 sep') 0 y). reflexivity.
Qed.

(** A text in which the separator does not occur is a single fragment. *)
Lemma str_split_absent (sep s : string) :
  str_contains sep s = false -> str_split sep s = [s].
Proof.
  unfold str_split. induction s as [|c s IH]; intros Hs; [reflexivity|].
  cbn [str_contains] in Hs. apply orb_false_iff in Hs. destruct Hs as [Hp Hs].
  cbn [split_go]. rewrite Hp. specialize (IH Hs).
  destruct (split_go sep 0 s) as [f r]. injection IH as -> ->. reflexivity.
Qed.

Lemma one_line_no_nl (t : string) : one_line t = true -> str_contains nl t = false.
Proof.
  induction t as [|c t IH]; intros Ht; [reflexivity|].
  cbn [one_line all_chars] in Ht. apply andb_true_iff in Ht. destruct Ht as [Hc Ht].
  apply negb_true_iff in Hc.
  cbn [str_contains]. rewrite (IH Ht), orb_false_r.
  apply prefix_head_differs. exact Hc.
Qed.

Lemma prefix_nil (y : string) : String.prefix EmptyString y = true.
Proof. destruct y; reflexivity. Qed.

(** Splitting into lines. *)
Lemma split_lines_nl (y : string) :
  str_split nl (String "010" y) = EmptyString :: str_split nl y.
Proof.
  unfold str_split, nl. cbn [split_go String.prefix String.length Nat.sub].
  destruct (ascii_dec "010" "010") as [_|N]; [|destruct N; reflexivity].
  rewrite prefix_nil.
  destruct (split_go (String "010" EmptyString) 0 y) as [f r]. reflexivity.
Qed.

Lemma split_lines_cons (t y : string) :
  one_line t = true -> str_split nl (t +:+ nl +:+ y) = t :: str_split nl y.
Proof.
  intros Ht. unfold nl at 1. rewrite (str_split_run "010" EmptyString t _ Ht).
  change (nl +:+ y) with (String "010" y). fold nl. rewrite split_lines_nl.
  cbn [cons_frag]. rewrite append_nil_r. reflexivity.
Qed.

Lemma split_lines_last (t : string) :
  one_line t = true -> str_split nl t = [t].
Proof. intros Ht. apply str_split_absent, one_line_no_nl, Ht. Qed.

(** Splitting into records, on two line feeds. *)
Lemma cons_frag_assoc (a b : string) (l : list string) :
  cons_frag a (cons_frag b l) = cons_frag (a +:+ b) l.
Proof. destruct l as [|f r]; cbn [cons_frag]; rewrite ?append_assoc; reflexivity. Qed.


Lemma split_records_sep (y : string) :
  str_split nn (String "010" (String "010" y)) = EmptyString :: str_split nn y.
Proof.
  unfold str_split, nn, nl. cbn [append split_go String.prefix String.length Nat.sub].
  destruct (ascii_dec "010" "010") as [_|N]; [|destruct N; reflexivity].
  rewrite prefix_nil.
  destruct (split_go (String "010" (String "010" EmptyString)) 0 y) as [f r].
  reflexivity.
Qed.

Lemma split_records_single (c : ascii) (y : string) :
  Ascii.eqb c "010" = false ->
  str_split nn (String "010" (String c y)) = cons_frag nl (str_split nn (String c y)).
Proof.
  intros Hc.
  assert (Hp : String.prefix nn (String "010" (String c y)) = false).
  { unfold nn, nl. cbn [append String.prefix].
    destruct (ascii_dec "010" "010") as [_|N]; [|destruct N; reflexivity].
    destruct (ascii_dec "010" c) as [<-|_]; [discriminate Hc | reflexivity]. }
  unfold str_split. remember (String c y) as z eqn:Hz.
  cbn [split_go]. rewrite Hp.
  destruct (split_go nn 0 z) as [f r]. reflexivity.
Qed.

Lemma split_records_line (t y : string) :
  one_line t = true -> t <> EmptyString ->
  str_split nn (String "010" (t +:+ y)) = cons_frag (nl +:+ t) (str_split nn y).
Proof.
  intros Ht Hne. destruct t as [|c t]; [congruence|].
  pose proof Ht as Hc. cbn [one_line all_chars] in Hc.
  apply andb_true_iff in Hc. destruct Hc as [Hc _]. apply negb_true_iff in Hc.
  rewrite <- cons_frag_assoc.
  rewrite <- (str_split_run "010" (String "010" EmptyString) _ _ Ht).
  cbn [append]. apply split_records_single, Hc.
Qed.

Lemma one_line_app (a b : string) : one_line (a +:+ b) = one_line a && one_line b.
Proof.
  unfold one_line. induction a as [|c a IH]; cbn [append all_chars]; [reflexivity|].
  rewrite IH, andb_assoc. reflexivity.
Qed.

Lemma text_plain_fields (c : contact) :
  text_plain c = true ->
  name c <> EmptyString /\ one_line (name c) = true
  /\ one_line (address c) = true /\ one_line (phone_number c) = true
  /\ str_contains ": " (address c) = false
  /\ str_contains ": " (phone_number c) = false.
Proof.
  unfold text_plain, no_key_sep. intros H.
  repeat (apply andb_true_iff in H; destruct H as [H ?]).
  repeat match goal with E : negb _ = true |- _ => apply negb_true_iff in E end.
  repeat split; try assumption.
  intros E. rewrite E in H. discriminate.
Qed.

Lemma split_records_body_nl (c : contact) (y : string) :
  text_plain c = true ->
  str_split nn (String "010" (record_body c +:+ y)) =
    cons_frag (nl +:+ record_body c) (str_split nn y).
Proof.
  intros Hc. destruct (text_plain_fields c Hc) as (Hne & Hn & Ha & Hp & _ & _).
  unfold record_body. rewrite !append_assoc.
  rewrite (split_records_line _ _ Hn Hne).
  change (nl +:+ "address: " +:+ ?x) with (String "010" ("address: " +:+ x)).
  rewrite <- (append_assoc "address: " (address c)).
  rewrite split_records_line;
    [|rewrite one_line_app, Ha; reflexivity | discriminate].
  change (nl +:+ "phone_number: " +:+ ?x) with (String "010" ("phone_number: " +:+ x)).
  rewrite <- (append_assoc "phone_number: " (phone_number c)).
  rewrite split_records_line;
    [|rewrite one_line_app, Hp; reflexivity | discriminate].
  rewrite !cons_frag_assoc, !append_assoc. reflexivity.
Qed.

Lemma split_records_body (c : contact) (y : string) :
  text_plain c = true ->
  str_split nn (record_body c +:+ y) = cons_frag (record_body c) (str_split nn y).
Proof.
  intros Hc. destruct (text_plain_fields c Hc) as (Hne & Hn & Ha & Hp & _ & _).
  unfold record_body. rewrite !append_assoc.
  change nn with (String "010" (String "010" EmptyString)) at 1.
  rewrite (str_split_run "010" (String "010" EmptyString) _ _ Hn).
  change (String "010" (String "010" EmptyString)) with nn.
  change (nl +:+ "address: " +:+ ?x) with (String "010" ("address: " +:+ x)).
  rewrite <- (append_assoc "address: " (address c)).
  rewrite split_records_line;
    [|rewrite one_line_app, Ha; reflexivity | discriminate].
  change (nl +:+ "phone_number: " +:+ ?x) with (String "010" ("phone_number: " +:+ x)).
  rewrite <- (append_assoc "phone_number: " (phone_number c)).
  rewrite split_records_line;
    [|rewrite one_line_app, Hp; reflexivity | discriminate].
  rewrite !cons_frag_assoc, !append_assoc. reflexivity.
Qed.

Lemma split_after (cs : list contact) :
  forallb text_plain cs = true ->
  str_split nn (nl +:+ records_text cs) = frags_after cs.
Proof.
  induction cs as [|c cs IH]; intros Hcs; [reflexivity|].
  cbn [forallb] in Hcs. apply andb_true_iff in Hcs. destruct Hcs as [Hc Hcs].
  cbn [records_text frags_after].
  change (nl +:+ nl +:+ ?x) with (String "010" (String "010" x)).
  rewrite split_records_sep, (split_records_body _ _ Hc), (IH Hcs). reflexivity.
Qed.

Lemma split_records (c : contact) (cs : list contact) :
  forallb text_plain (c :: cs) = true ->
  str_split nn (records_text (c :: cs)) =
    cons_frag (nl +:+ record_body c) (frags_after cs).
Proof.
  intros Hcs. cbn [forallb] in Hcs. apply andb_true_iff in Hcs. destruct Hcs as [Hc Hcs].
  cbn [records_text].
  change (nl +:+ record_body c +:+ ?x) with (String "010" (record_body c +:+ x)).
  rewrite (split_records_body_nl _ _ Hc), (split_after _ Hcs). reflexivity.
Qed.

Lemma formatted_text_decode_unfold (s : string) :
  formatted_text_decode s =
    (contacts ← for_each decode_fragment (str_split nn s) [];
     Ok (PList contacts, length contacts)).
Proof. reflexivity. Qed.

Lemma last_after_key (key value : string) :
  str_contains ": " key = false -> str_contains ": " value = false ->
  getitem_last (str_split ": " (key +:+ ": " +:+ value)) = value.
Proof.
  intros Hk Hv. unfold str_split.
  assert (Hgo : split_go ": " 0 (key +:+ ": " +:+ value) = (key, [value])).
  { induction key as [|c key IH].
    - cbn [append split_go String.prefix String.length Nat.sub].
      destruct (ascii_dec ":" ":") as [_|N]; [|destruct N; reflexivity].
      destruct (ascii_dec " " " ") as [_|N]; [|destruct N; reflexivity].
      rewrite prefix_nil.
      pose proof (str_split_absent ": " value Hv) as Hs. unfold str_split in Hs.
      destruct (split_go ": " 0 value) as [f r]. injection Hs as -> ->. reflexivity.
    - cbn [str_contains] in Hk. apply orb_false_iff in Hk. destruct Hk as [Hp Hk].
      assert (Hp' : String.prefix ": " (String c (key +:+ ": " +:+ value)) = false).
      { cbn [String.prefix] in Hp |- *. destruct (ascii_dec ":" c); [|reflexivity].
        destruct key as [|k key]; cbn [append String.prefix] in Hp |- *.
        - destruct (ascii_dec " " ":"); [discriminate | reflexivity].
        - destruct (ascii_dec " " k); [|reflexivity].
          rewrite prefix_nil in Hp. discriminate. }
      change (String c key +:+ ": " +:+ value) with (String c (key +:+ ": " +:+ value)).
      cbn [split_go]. rewrite Hp', (IH Hk). reflexivity. }
  rewrite Hgo. reflexivity.
Qed.

Lemma record_body_lines (c : contact) :
  record_body c = name c +:+ nl +:+ line2 c +:+ nl +:+ line3 c.
Proof. unfold record_body, line2, line3. rewrite !append_assoc. reflexivity. Qed.

Lemma body_lines (c : contact) :
  text_plain c = true ->
  str_split nl (record_body c) = [name c; line2 c; line3 c]
  /\ str_split nl (record_body c +:+ nl) = [name c; line2 c; line3 c; EmptyString].
Proof.
  intros Hc. destruct (text_plain_fields c Hc) as (_ & Hn & Ha & Hp & _ & _).
  assert (H2 : one_line (line2 c) = true)
    by (unfold line2; rewrite one_line_app, Ha; reflexivity).
  assert (H3 : one_line (line3 c) = true)
    by (unfold line3; rewrite one_line_app, Hp; reflexivity).
  rewrite record_body_lines. split.
  - rewrite (split_lines_cons _ _ Hn), (split_lines_cons _ _ H2), (split_lines_last _ H3).
    reflexivity.
  - rewrite !append_assoc.
    rewrite (split_lines_cons _ _ Hn), (split_lines_cons _ _ H2).
    change nl with (nl +:+ EmptyString) at 2.
    rewrite (split_lines_cons _ _ H3). reflexivity.
Qed.

Lemma last_line2 (c : contact) :
  text_plain c = true -> getitem_last (str_split ": " (line2 c)) = address c.
Proof.
  intros Hc. destruct (text_plain_fields c Hc) as (_ & _ & _ & _ & Ha & _).
  apply (last_after_key "address" (address c)); [reflexivity | exact Ha].
Qed.

Lemma last_line3 (c : contact) :
  text_plain c = true -> getitem_last (str_split ": " (line3 c)) = phone_number c.
Proof.
  intros Hc. destruct (text_plain_fields c Hc) as (_ & _ & _ & _ & _ & Hp).
  apply (last_after_key "phone_number" (phone_number c)); [reflexivity | exact Hp].
Qed.

Lemma record_body_not_empty (c : contact) (y : string) :
  text_plain c = true -> record_body c +:+ y <> EmptyString.
Proof.
  intros Hc. destruct (text_plain_fields c Hc) as (Hne & _).
  unfold record_body. destruct (name c); [congruence | discriminate].
Qed.

(** The first fragment keeps its leading line feed and is read well, whether
    it is followed by a line feed or not. *)
Lemma decode_fragment_first (c : contact) (acc : list pyobj) (tail : string) :
  text_plain c = true -> tail = EmptyString \/ tail = nl ->
  decode_fragment acc ((nl +:+ record_body c) +:+ tail) = Ok (acc ++ [to_dict c]).
Proof.
  intros Hc Htail. destruct (body_lines c Hc) as [Hl Hlnl].
  unfold decode_fragment.
  destruct (decide ((nl +:+ record_body c) +:+ tail = EmptyString)) as [E|_];
    [discriminate E|].
  rewrite append_assoc. change (nl +:+ ?x) with (String "010" x).
  rewrite split_lines_nl.
  destruct Htail as [-> | ->]; [rewrite append_nil_r, Hl | rewrite Hlnl];
    cbn [getitem lookup list_lookup mbind outcome_bind];
    rewrite (last_line2 c Hc), (last_line3 c Hc); destruct c; reflexivity.
Qed.

(** A later fragment has lost its leading line feed.  Followed by a line
    feed, it is read one line too low. *)
Lemma decode_fragment_last (c : contact) (acc : list pyobj) :
  text_plain c = true ->
  decode_fragment acc (record_body c +:+ nl) = Ok (acc ++ [misread c]).
Proof.
  intros Hc. destruct (body_lines c Hc) as [_ Hlnl].
  unfold decode_fragment.
  destruct (decide (record_body c +:+ nl = EmptyString)) as [E|_];
    [destruct (record_body_not_empty c nl Hc E)|].
  rewrite Hlnl. cbn [getitem lookup list_lookup mbind outcome_bind].
  rewrite (last_line3 c Hc). reflexivity.
Qed.

(** Followed by another contact, it has three lines only and line 3 is out
    of range. *)
Lemma decode_fragment_middle (c : contact) (acc : list pyobj) :
  text_plain c = true ->
  decode_fragment acc (record_body c +:+ EmptyString) = IndexError.
Proof.
  intros Hc. destruct (body_lines c Hc) as [Hl _].
  unfold decode_fragment.
  destruct (decide (record_body c +:+ EmptyString = EmptyString)) as [E|_];
    [destruct (record_body_not_empty c _ Hc E)|].
  rewrite append_nil_r, Hl. reflexivity.
Qed.

(** C1. On collections whose fields the format can carry, the round trip
    gives the collection back only when it holds at most one contact.  The
    second of two contacts is read one line too low: its name is the address
    line, its address the phone number, and its phone number is empty.  With
    three contacts or more the decoder raises [IndexError]. *)
Theorem formatted_text_round_trip_cases (cs : list contact) :
  forallb text_plain cs = true ->
  round_trip formatted_text_codec (canonical cs) = formatted_text_outcome cs.
Proof.
  intros Hcs. unfold round_trip, formatted_text_codec. cbn [encode decode].
  rewrite formatted_text_encode_canonical. cbn [mbind outcome_bind].
  rewrite formatted_text_decode_unfold.
  destruct cs as [|c cs]; [reflexivity|].
  rewrite (split_records c cs Hcs).
  cbn [forallb] in Hcs. apply andb_true_iff in Hcs. destruct Hcs as [Hc Hcs].
  destruct cs as [|c' cs].
  - cbn [frags_after cons_frag for_each].
    rewrite (decode_fragment_first c [] nl Hc) by (right; reflexivity). reflexivity.
  - cbn [forallb] in Hcs. apply andb_true_iff in Hcs. destruct Hcs as [Hc' Hcs].
    cbn [frags_after cons_frag for_each].
    rewrite (decode_fragment_first c [] EmptyString Hc) by (left; reflexivity).
    cbn [mbind outcome_bind app].
    destruct cs as [|c'' cs].
    + cbn [frags_after cons_frag for_each].
      rewrite (decode_fragment_last c' _ Hc'). reflexivity.
    + cbn [frags_after cons_frag for_each].
      rewrite (decode_fragment_middle c' _ Hc'). reflexivity.
Qed.

Lemma formatted_text_two_contacts :
  round_trip formatted_text_codec (canonical [alice; bob]) =
    Ok (PList [to_dict alice;
               contact_dict (PStr "address: 2 High St") (PStr "555-2222")
                            (PStr EmptyString)])
  /\ py_eqb (PList [to_dict alice;
                    contact_dict (PStr "address: 2 High St") (PStr "555-2222")
                                 (PStr EmptyString)])
            (canonical [alice; bob]) = false.
Proof.
  split; [|reflexivity].
  apply (formatted_text_round_trip_cases [alice; bob]). reflexivity.
Defined.

Lemma formatted_text_three_contacts :
  round_trip formatted_text_codec (canonical [alice; bob; carol]) = IndexError.
Proof. vm_compute. reflexivity. Qed.
(** ** Files written and read through the registry *)

Lemma json_codec_round_trip_text (cs : list contact) :
  exists text : string,
    json_encode (canonical cs) = Ok (text, length cs)
    /\ json_decode text = Ok (canonical cs, String.length text).
Proof.
  pose proof (loads_dumps_canonical cs) as Hrt.
  unfold json_encode, json_decode. cbn [json_dumps json_loads model_runtime].
  destruct (dumps (canonical cs)) as [text| |]; cbn [mbind outcome_bind] in Hrt;
    try discriminate.
  exists text. cbn [mbind outcome_bind py_len canonical]. rewrite length_map, Hrt.
  split; reflexivity.
Qed.

(** ** The registry after registration *)

Section RegistryMore.
Context `{RT : PyRuntime}.

Lemma own_resolvers_match (key : string) :
  first_match own_resolvers key = module_codec key.
Proof.
  unfold own_resolvers, module_codec, first_match, json_search, yaml_search,
    html_table_search, formatted_text_search.
  repeat (destruct (decide _) as [->|?]; [reflexivity|]). reflexivity.
Qed.

Lemma lookup_after_register (r : registry) (encoding : string) (c : CodecInfo) :
  embedded_null encoding = false ->
  search_cache r !! normalizestring encoding = None ->
  first_match (search_path r) (normalizestring encoding) = None ->
  module_codec (normalizestring encoding) = Some c ->
  codecs_lookup encoding (register_codecs r) =
    (Ok c, {| search_path := search_path (register_codecs r);
              search_cache := <[normalizestring encoding := c]> (search_cache r) |}).
Proof.
  intros Hnul Hcache Hpath Hc. rewrite (lookup_plain _ _ Hnul). unfold registry_lookup.
  rewrite register_codecs_cache, Hcache, register_codecs_path, first_match_app, Hpath,
    own_resolvers_match, Hc.
  reflexivity.
Qed.



Lemma lookup_failure_keeps (r r' : registry) (encoding : string) (e : exn) :
  codecs_lookup encoding r = (Raise e, r') -> r' = r.
Proof.
  unfold codecs_lookup. destruct (embedded_null encoding); [intros [= _ <-]; reflexivity|].
  unfold registry_lookup.
  destruct (search_cache r !! normalizestring encoding); [discriminate|].
  destruct (first_match (search_path r) (normalizestring encoding)); [discriminate|].
  intros [= _ <-]. reflexivity.
Qed.

End RegistryMore.

(** What a format name resolves to once the codecs are registered in a
    registry that held nothing. *)
Lemma registered_lookup `{PyRuntime} (encoding : string) (c : CodecInfo) :
  embedded_null encoding = false ->
  module_codec (normalizestring encoding) = Some c ->
  fst (codecs_lookup encoding (register_codecs fresh_registry)) = Ok c.
Proof.
  intros Hnul Hc.
  rewrite (lookup_after_register fresh_registry encoding c);
    [reflexivity|exact Hnul| |reflexivity|exact Hc].
  apply lookup_empty.
Qed.





(** X3. A failed [write_file] is not harmless: the file is opened for writing
    before the object is encoded, so when the format is unknown or the
    encoder raises, the exception comes out and the file is left empty,
    whatever it held before.  No other file changes. *)
Theorem write_file_failure_empties_file `{PyRuntime} (w : world)
    (file_path encoding : string) (obj : pyobj) (e : exn) :
  fst (codecs_encode obj encoding (codec_registry w)) = Raise e ->
  fst (write_file file_path encoding obj w) = Raise e
  /\ files (snd (write_file file_path encoding obj w)) !! file_path = Some EmptyString
  /\ forall other, other <> file_path ->
       files (snd (write_file file_path encoding obj w)) !! other = files w !! other.
Proof.
  intros Hfail. unfold write_file.
  destruct (codecs_encode obj encoding (codec_registry w)) as [res r'].
  cbn [fst] in Hfail. subst res. cbn [fst snd files].
  split; [reflexivity|]. split.
  - apply lookup_insert_eq.
  - intros other Hother. rewrite lookup_insert_ne by congruence. reflexivity.
Qed.

Lemma write_file_failure_empties_file_witness :
  fst (write_file "book.txt" "csv" (canonical [alice])
         {| codec_registry := register_codecs fresh_registry;
            files := {["book.txt" := "kept"]} |}) =
    Raise (Exn "LookupError" "unknown encoding: csv")
  /\ files (snd (write_file "book.txt" "csv" (canonical [alice])
                   {| codec_registry := register_codecs fresh_registry;
                      files := {["book.txt" := "kept"]} |})) !! "book.txt" = Some EmptyString.
Proof.
  assert (Hfail : fst (codecs_encode (canonical [alice]) "csv"
                         (codec_registry
                            {| codec_registry := register_codecs fresh_registry;
                               files := {["book.txt" := "kept"]} |})) =
                  Raise (Exn "LookupError" "unknown encoding: csv"))
    by (vm_compute; reflexivity).
  destruct (write_file_failure_empties_file _ "book.txt" "csv" (canonical [alice]) _ Hfail)
    as (H1 & H2 & _).
  split; [exact H1 | exact H2].
Defined.

(** X4. The text of the delimited-text encoder. *)
Theorem formatted_text_encode_records (cs : list contact) :
  formatted_text_encode (canonical cs) =
    Ok (records_text cs, String.length (records_text cs))
  /\ String.length (records_text cs) =
       list_sum (map (fun c => 27 + String.length (name c) + String.length (address c)
                               + String.length (phone_number c)) cs).
Proof.
  split; [apply formatted_text_encode_canonical|].
  induction cs as [|c cs IH]; [reflexivity|].
  cbn [records_text map list_sum]. unfold record_body.
  rewrite !length_append, IH. cbn [String.length nl].
  change (list_sum (?x :: ?l)) with (x + list_sum l). lia.
Qed.

Lemma decode_fragment_empty (acc : list pyobj) :
  decode_fragment acc EmptyString = Ok acc.
Proof. reflexivity. Qed.

Lemma decode_fragment_lines (acc : list pyobj) (fragment : string) :
  fragment <> EmptyString ->
  4 <= length (str_split nl fragment) ->
  decode_fragment acc fragment =
    Ok (acc ++
        [PDict [(PStr (nth 1 (str_split nl fragment) EmptyString),
                 PDict [(PStr "address",
                         PStr (List.last
                                 (str_split ": " (nth 2 (str_split nl fragment) EmptyString))
                                 EmptyString));
                        (PStr "phone_number",
                         PStr (List.last
                                 (str_split ": " (nth 3 (str_split nl fragment) EmptyString))
                                 EmptyString))])]]).
Proof.
  intros Hne Hlen. unfold decode_fragment.
  destruct (decide (fragment = EmptyString)) as [E|_]; [contradiction|].
  destruct (str_split nl fragment) as [|l0 [|l1 [|l2 [|l3 rest]]]];
    cbn [length] in Hlen; try lia.
  reflexivity.
Qed.

Lemma decode_fragment_few_lines (acc : list pyobj) (fragment : string) :
  fragment <> EmptyString ->
  length (str_split nl fragment) < 4 ->
  decode_fragment acc fragment = IndexError.
Proof.
  intros Hne Hlen. unfold decode_fragment.
  destruct (decide (fragment = EmptyString)) as [E|_]; [contradiction|].
  destruct (str_split nl fragment) as [|l0 [|l1 [|l2 [|l3 rest]]]];
    cbn [length] in Hlen; try lia; reflexivity.
Qed.

(** X5. The delimited-text decoder on any text.  It raises [IndexError]
    exactly when some fragment between blank lines that is not empty has
    fewer than four lines (the first of them counts, which is empty in what
    the encoder writes).  Otherwise it returns one contact for each fragment
    that is not empty, in order, with their number: the name is the second
    line, and the address and the phone number are what follows the last
    [": "] of the third and the fourth. *)
Theorem formatted_text_decode_shape (text : string) :
  (Forall (fun fragment => 4 <= length (str_split nl fragment))
          (filter (fun fragment => fragment <> EmptyString) (str_split (nl +:+ nl) text)) ->
   formatted_text_decode text =
     Ok (PList
           (map (fun fragment =>
                   PDict [(PStr (nth 1 (str_split nl fragment) EmptyString),
                           PDict [(PStr "address",
                                   PStr (List.last
                                           (str_split ": "
                                              (nth 2 (str_split nl fragment) EmptyString))
                                           EmptyString));
                                  (PStr "phone_number",
                                   PStr (List.last
                                           (str_split ": "
                                              (nth 3 (str_split nl fragment) EmptyString))
                                           EmptyString))])])
                (filter (fun fragment => fragment <> EmptyString)
                        (str_split (nl +:+ nl) text))),
         length (filter (fun fragment => fragment <> EmptyString)
                        (str_split (nl +:+ nl) text))))
  /\ (Exists (fun fragment => length (str_split nl fragment) < 4)
             (filter (fun fragment => fragment <> EmptyString)
                     (str_split (nl +:+ nl) text)) ->
      formatted_text_decode text = IndexError).
Proof.
  rewrite formatted_text_decode_unfold. change nn with (nl +:+ nl).
  generalize (str_split (nl +:+ nl) text). intros fragments.
  set (dict := fun fragment : string =>
         PDict [(PStr (nth 1 (str_split nl fragment) EmptyString),
                 PDict [(PStr "address",
                         PStr (List.last
                                 (str_split ": " (nth 2 (str_split nl fragment) EmptyString))
                                 EmptyString));
                        (PStr "phone_number",
                         PStr (List.last
                                 (str_split ": " (nth 3 (str_split nl fragment) EmptyString))
                                 EmptyString))])]).
  assert (Hfull : forall acc,
    Forall (fun fragment => 4 <= length (str_split nl fragment))
           (filter (fun fragment => fragment <> EmptyString) fragments) ->
    for_each decode_fragment fragments acc =
      Ok (acc ++ map dict (filter (fun fragment => fragment <> EmptyString) fragments))).
  { induction fragments as [|f fs IH]; intros acc Hall.
    - cbn. rewrite app_nil_r. reflexivity.
    - cbn [for_each]. destruct (decide (f = EmptyString)) as [->|Hne].
      + rewrite decode_fragment_empty. cbn [mbind outcome_bind].
        rewrite filter_cons_False in Hall |- * by (intros N; apply N; reflexivity).
        apply IH, Hall.
      + rewrite filter_cons_True in Hall |- * by exact Hne.
        inversion Hall as [|? ? Hf Hrest]; subst.
        rewrite (decode_fragment_lines _ _ Hne Hf). cbn [mbind outcome_bind map].
        rewrite (IH _ Hrest), <- app_assoc. reflexivity. }
  assert (Hshort : forall acc,
    Exists (fun fragment => length (str_split nl fragment) < 4)
           (filter (fun fragment => fragment <> EmptyString) fragments) ->
    for_each decode_fragment fragments acc = IndexError).
  { clear Hfull. induction fragments as [|f fs IH]; intros acc Hex.
    - cbn in Hex. inversion Hex.
    - cbn [for_each]. destruct (decide (f = EmptyString)) as [->|Hne].
      + rewrite decode_fragment_empty. cbn [mbind outcome_bind].
        rewrite filter_cons_False in Hex by (intros N; apply N; reflexivity).
        apply IH, Hex.
      + rewrite filter_cons_True in Hex by exact Hne.
        destruct (lt_dec (length (str_split nl f)) 4) as [Hlt|Hge].
        * rewrite (decode_fragment_few_lines _ _ Hne Hlt). reflexivity.
        * rewrite (decode_fragment_lines _ _ Hne) by lia. cbn [mbind outcome_bind].
          inversion Hex as [? ? Hf|? ? Hrest]; subst; [contradiction|].
          apply IH, Hrest. }
  split.
  - intros Hall. rewrite (Hfull [] Hall). cbn [mbind outcome_bind app].
    rewrite length_map. reflexivity.
  - intros Hex. rewrite (Hshort [] Hex). reflexivity.
Qed.

Lemma formatted_text_decode_shape_witness :
  formatted_text_decode (nl +:+ "Bob" +:+ nl +:+ "address: 2 High St" +:+ nl
                         +:+ "phone_number: 555-2222" +:+ nl) =
    Ok (PList [PDict [(PStr "Bob",
                       PDict [(PStr "address", PStr "2 High St");
                              (PStr "phone_number", PStr "555-2222")])]], 1)
  /\ formatted_text_decode ("Bob" +:+ nl +:+ "address: 2 High St") = IndexError.
Proof.
  split.
  - destruct (formatted_text_decode_shape
                (nl +:+ "Bob" +:+ nl +:+ "address: 2 High St" +:+ nl
                 +:+ "phone_number: 555-2222" +:+ nl)) as [Hfull _].
    rewrite Hfull; [vm_compute; reflexivity|].
    vm_compute. repeat constructor.
  - destruct (formatted_text_decode_shape ("Bob" +:+ nl +:+ "address: 2 High St"))
      as [_ Hshort].
    apply Hshort. vm_compute. apply List.Exists_cons_hd. lia.
Defined.

(** ** The value of a line *)



Lemma last_without_sep (y : string) :
  str_contains ": " y = false -> getitem_last (str_split ": " y) = y.
Proof. intros Hy. rewrite (str_split_absent _ _ Hy). reflexivity. Qed.



Lemma formatted_text_encode_stops (before : list contact) (n : string) (a p : pyobj)
    (after : list pyobj) :
  a = PNone \/ ((exists s, a = PStr s) /\ p = PNone) ->
  formatted_text_encode
    (PList (map to_dict before ++ contact_dict (PStr n) a p :: after)) =
    TypeError ("can only concatenate str (not " +:+ dquote +:+ "NoneType" +:+ dquote
               +:+ ") to str").
Proof.
  intros Hnone. unfold formatted_text_encode. cbn [py_iter mbind outcome_bind].
  match goal with |- context [for_each ?f _ _] => set (body := f) end.
  assert (Hbody : forall acc c, body acc (to_dict c) = Ok (acc +:+ nl +:+ record_body c +:+ nl)).
  { intros acc c. unfold body, to_dict, contact_dict, record_body. cbn.
    unfold nl. rewrite !append_assoc. cbn [append]. rewrite ?append_assoc.
    cbn [append]. reflexivity. }
  assert (Hbad : forall acc, body acc (contact_dict (PStr n) a p) =
    TypeError ("can only concatenate str (not " +:+ dquote +:+ "NoneType" +:+ dquote
               +:+ ") to str")).
  { intros acc. unfold body, contact_dict.
    destruct Hnone as [-> | [[s ->] ->]]; reflexivity. }
  assert (Hloop : forall acc, exists acc',
    for_each body (map to_dict before) acc = Ok acc').
  { clearbody body. induction before as [|c cs IH]; intros acc; [eexists; reflexivity|].
    cbn [map for_each]. rewrite Hbody. cbn [mbind outcome_bind]. apply IH. }
  rewrite for_each_app. destruct (Hloop EmptyString) as [acc' ->].
  cbn [mbind outcome_bind for_each]. rewrite Hbad. reflexivity.
Qed.

(** X7. A contact whose address or phone number is [None] makes the
    delimited-text encoder raise [TypeError], wherever it stands in the
    collection. *)
Theorem formatted_text_encode_None_field (before : list contact) (n : string)
    (a p : pyobj) (after : list pyobj) :
  a = PNone \/ ((exists s, a = PStr s) /\ p = PNone) ->
  formatted_text_encode
    (PList (map to_dict before ++ contact_dict (PStr n) a p :: after)) =
    TypeError ("can only concatenate str (not " +:+ dquote +:+ "NoneType" +:+ dquote
               +:+ ") to str").
Proof. apply formatted_text_encode_stops. Qed.

Lemma formatted_text_encode_None_field_witness :
  formatted_text_encode
    (PList (map to_dict [alice] ++ contact_dict (PStr "Bob") PNone (PStr "555-2222") :: [])) =
    TypeError ("can only concatenate str (not " +:+ dquote +:+ "NoneType" +:+ dquote
               +:+ ") to str").
Proof.
  apply (formatted_text_encode_None_field [alice] "Bob" PNone (PStr "555-2222") []).
  left. reflexivity.
Defined.

(** ** The address book *)

Section Effects.
Context `{RT : PyRuntime}.

Lemma lookup_keeps_path (encoding : string) (r : registry) :
  search_path (snd (codecs_lookup encoding r)) = search_path r.
Proof.
  unfold codecs_lookup. destruct (embedded_null encoding); [reflexivity|].
  unfold registry_lookup.
  destruct (search_cache r !! normalizestring encoding); [reflexivity|].
  destruct (first_match (search_path r) (normalizestring encoding)); reflexivity.
Qed.

Lemma lookup_keeps_cached (encoding key : string) (c : CodecInfo) (r : registry) :
  search_cache r !! key = Some c ->
  search_cache (snd (codecs_lookup encoding r)) !! key = Some c.
Proof.
  intros Hc. unfold codecs_lookup. destruct (embedded_null encoding); [exact Hc|].
  unfold registry_lookup.
  destruct (search_cache r !! normalizestring encoding) eqn:Hn; [exact Hc|].
  destruct (first_match (search_path r) (normalizestring encoding)); [|exact Hc].
  cbn [snd search_cache]. rewrite lookup_insert_ne; [exact Hc|].
  intros E. rewrite E in Hn. congruence.
Qed.

Lemma encode_registry (obj : pyobj) (encoding : string) (r : registry) :
  snd (codecs_encode obj encoding r) = snd (codecs_lookup encoding r).
Proof.
  unfold codecs_encode. destruct (codecs_lookup encoding r) as [[c|e|] r']; reflexivity.
Qed.

Lemma decode_registry (text encoding : string) (r : registry) :
  snd (codecs_decode text encoding r) = snd (codecs_lookup encoding r).
Proof.
  unfold codecs_decode. destruct (codecs_lookup encoding r) as [[c|e|] r']; reflexivity.
Qed.

Lemma write_file_registry (file_path encoding : string) (obj : pyobj) (w : world) :
  codec_registry (snd (write_file file_path encoding obj w)) =
    snd (codecs_lookup encoding (codec_registry w)).
Proof.
  unfold write_file. rewrite <- (encode_registry obj).
  destruct (codecs_encode obj encoding (codec_registry w)) as [[t|e|] r']; reflexivity.
Qed.

Lemma write_file_other (file_path encoding other : string) (obj : pyobj) (w : world) :
  other <> file_path ->
  files (snd (write_file file_path encoding obj w)) !! other = files w !! other.
Proof.
  intros Hne. unfold write_file.
  destruct (codecs_encode obj encoding (codec_registry w)) as [[t|e|] r'];
    cbn [snd files]; rewrite ?lookup_insert_ne by congruence; reflexivity.
Qed.

Lemma read_file_files (file_path encoding : string) (w : world) :
  files (snd (read_file file_path encoding w)) = files w.
Proof.
  unfold read_file. destruct (files w !! file_path); [|reflexivity].
  destruct (codecs_decode _ encoding (codec_registry w)). reflexivity.
Qed.

Lemma read_file_path (file_path encoding : string) (w : world) :
  search_path (codec_registry (snd (read_file file_path encoding w))) =
    search_path (codec_registry w).
Proof.
  unfold read_file. destruct (files w !! file_path) as [t|]; [|reflexivity].
  pose proof (decode_registry (universal_newlines t) encoding (codec_registry w)) as Hd.
  destruct (codecs_decode (universal_newlines t) encoding (codec_registry w)) as [res r'].
  cbn [snd codec_registry] in *. subst r'. apply lookup_keeps_path.
Qed.

End Effects.

Section Lookups.
Context `{RT : PyRuntime}.

Lemma lookup_hit (encoding : string) (c : CodecInfo) (r : registry) :
  embedded_null encoding = false ->
  search_cache r !! normalizestring encoding = Some c ->
  codecs_lookup encoding r = (Ok c, r).
Proof.
  intros Hnul Hc. rewrite (lookup_plain _ _ Hnul). unfold registry_lookup.
  rewrite Hc. reflexivity.
Qed.

Lemma lookup_caches (encoding : string) (c : CodecInfo) (r : registry) :
  fst (codecs_lookup encoding r) = Ok c ->
  search_cache (snd (codecs_lookup encoding r)) !! normalizestring encoding = Some c.
Proof.
  unfold codecs_lookup. destruct (embedded_null encoding); [discriminate|].
  unfold registry_lookup.
  destruct (search_cache r !! normalizestring encoding) as [c0|] eqn:Hcache.
  - intros [= <-]. exact Hcache.
  - destruct (first_match (search_path r) (normalizestring encoding)) as [c0|];
      intros [= <-].
    cbn [snd search_cache]. apply lookup_insert_eq.
Qed.

(** A lookup does not change what any name resolves to. *)
Lemma lookup_stable (e1 e2 : string) (r : registry) :
  fst (codecs_lookup e2 (snd (codecs_lookup e1 r))) = fst (codecs_lookup e2 r).
Proof.
  unfold codecs_lookup at 2. destruct (embedded_null e1); [reflexivity|].
  unfold registry_lookup at 1.
  destruct (search_cache r !! normalizestring e1) as [c1|] eqn:H1; [reflexivity|].
  destruct (first_match (search_path r) (normalizestring e1)) as [c1|] eqn:F1;
    [|reflexivity].
  cbn [snd]. unfold codecs_lookup. destruct (embedded_null e2); [reflexivity|].
  unfold registry_lookup. cbn [search_cache search_path].
  destruct (decide (normalizestring e2 = normalizestring e1)) as [E|E].
  - rewrite E, lookup_insert_eq, H1, F1. reflexivity.
  - rewrite lookup_insert_ne by congruence.
    destruct (search_cache r !! normalizestring e2); [reflexivity|].
    destruct (first_match (search_path r) (normalizestring e2)); reflexivity.
Qed.

(** Registering the codecs again does not change what a name that resolves
    resolves to. *)
Lemma register_keeps_resolved (encoding : string) (c : CodecInfo) (r : registry) :
  fst (codecs_lookup encoding r) = Ok c ->
  fst (codecs_lookup encoding (register_codecs r)) = Ok c.
Proof.
  unfold codecs_lookup. destruct (embedded_null encoding); [auto|].
  unfold registry_lookup. rewrite register_codecs_cache, register_codecs_path.
  destruct (search_cache r !! normalizestring encoding); [auto|].
  rewrite first_match_app.
  destruct (first_match (search_path r) (normalizestring encoding)); [auto|].
  discriminate.
Qed.

Lemma read_file_registry (file_path encoding : string) (w : world) :
  codec_registry (snd (read_file file_path encoding w)) = codec_registry w
  \/ codec_registry (snd (read_file file_path encoding w)) =
       snd (codecs_lookup encoding (codec_registry w)).
Proof.
  unfold read_file. destruct (files w !! file_path) as [t|]; [|left; reflexivity].
  pose proof (decode_registry (universal_newlines t) encoding (codec_registry w)) as Hd.
  destruct (codecs_decode (universal_newlines t) encoding (codec_registry w)) as [res r'].
  cbn [snd codec_registry] in *. right. exact Hd.
Qed.

End Lookups.

Lemma for_each_io_app {A S : Type} (body : S -> A -> io S) (xs ys : list A) (s : S)
    (w : world) :
  for_each_io body (xs ++ ys) s w =
    match for_each_io body xs s w with
    | (Ok s', w') => for_each_io body ys s' w'
    | (Raise e, w') => (Raise e, w')
    | (Unmodelled, w') => (Unmodelled, w')
    end.
Proof.
  revert s w. induction xs as [|x xs IH]; intros s w; [reflexivity|].
  cbn [app for_each_io]. destruct (body s x w) as [[s'|e|] w']; auto.
Qed.

Section AddressBookFacts.
Context `{RT : PyRuntime} `{OS : OsPath}.

Lemma load_contact_details_unsupported (self : ContactObject) (file_path : string)
    (w : world) :
  supported_extension (snd (path_splitext file_path)) = false ->
  load_contact_details self file_path w =
    (AddressBookValueError (unsupported_file_message (snd (path_splitext file_path))), w).
Proof.
  unfold supported_extension, load_contact_details. intros Hext.
  apply orb_false_iff in Hext as [Hj Hy].
  apply String.eqb_neq in Hj, Hy.
  destruct (path_splitext file_path) as [file_name file_extension]. cbn [snd] in *.
  cbn [fold_left contact_formats].
  destruct (decide (file_extension = ".json")) as [E|_]; [contradiction|].
  destruct (decide (file_extension = ".yaml")) as [E|_]; [contradiction|].
  destruct (decide (EmptyString = EmptyString)) as [_|N]; [reflexivity|contradiction].
Qed.

Lemma load_contact_details_files (self : ContactObject) (file_path : string) (w : world) :
  files (snd (load_contact_details self file_path w)) = files w.
Proof.
  unfold load_contact_details.
  destruct (path_splitext file_path) as [file_name file_extension].
  destruct (decide _); [reflexivity|].
  match goal with |- context [read_file ?p ?e w] =>
    pose proof (read_file_files p e w) as Hf;
    destruct (read_file p e w) as [[d|e0|] w'] end; exact Hf.
Qed.

Lemma load_contact_details_path (self : ContactObject) (file_path : string) (w : world) :
  search_path (codec_registry (snd (load_contact_details self file_path w))) =
    search_path (codec_registry w).
Proof.
  unfold load_contact_details.
  destruct (path_splitext file_path) as [file_name file_extension].
  destruct (decide _); [reflexivity|].
  match goal with |- context [read_file ?p ?e w] =>
    pose proof (read_file_path p e w) as Hf;
    destruct (read_file p e w) as [[d|e0|] w'] end; exact Hf.
Qed.

Lemma reload_contacts_unfold (entries : list DirEntry) :
  reload_contacts entries = for_each_io reload_step entries [].
Proof. reflexivity. Qed.


Lemma reload_loop_effects (entries : list DirEntry) (acc : list ContactObject) (w : world) :
  files (snd (for_each_io reload_step entries acc w)) = files w
  /\ forall contacts : list ContactObject,
       fst (for_each_io reload_step entries acc w) = Ok contacts ->
       length contacts =
         length acc + length (filter (fun e => is_contact_file e = true) entries)
       /\ search_path (codec_registry (snd (for_each_io reload_step entries acc w))) =
            search_path (codec_registry w)
              ++ concat (replicate (length contacts - length acc) own_resolvers).
Proof.
  revert acc w. induction entries as [|e es IH]; intros acc w.
  - cbn. split; [reflexivity|]. intros contacts [= <-].
    rewrite Nat.sub_diag. cbn. rewrite app_nil_r. split; [lia|reflexivity].
  - cbn [for_each_io]. unfold reload_step at 1 3 5.
    fold (is_contact_file e). destruct (is_contact_file e) eqn:He.
    + unfold Contact_init.
      set (w1 := {| codec_registry := register_codecs (codec_registry w);
                    files := files w |}).
      pose proof (load_contact_details_files
                    {| _name := PNone; _address := PNone; _phone_number := PNone |}
                    (entry_path e) w1) as Hf.
      pose proof (load_contact_details_path
                    {| _name := PNone; _address := PNone; _phone_number := PNone |}
                    (entry_path e) w1) as Hp.
      destruct (load_contact_details _ (entry_path e) w1) as [[c|x|] w2];
        cbn [snd fst] in *; try (split; [exact Hf | discriminate]).
      destruct (IH (acc ++ [c]) w2) as [IHf IHp]. split; [rewrite IHf, Hf; reflexivity|].
      intros contacts Hc. destruct (IHp contacts Hc) as [Hlen Hpath].
      rewrite length_app in Hlen. cbn [length] in Hlen.
      rewrite filter_cons_True by exact He. cbn [length].
      split; [lia|].
      rewrite Hpath, Hp. unfold w1. cbn [codec_registry].
      rewrite register_codecs_path, <- app_assoc. f_equal.
      rewrite length_app. cbn [length].
      replace (length contacts - length acc)
        with (S (length contacts - (length acc + 1))) by lia.
      reflexivity.
    + destruct (IH acc w) as [IHf IHp]. split; [exact IHf|].
      intros contacts Hc. destruct (IHp contacts Hc) as [Hlen Hpath].
      rewrite filter_cons_False by (rewrite He; discriminate). auto.
Qed.


Lemma save_contact_details_world (n : string) (a p : pyobj) (dir : string) (w : world) :
  snd (save_contact_details {| _name := PStr n; _address := a; _phone_number := p |} dir w) =
    match write_file (contact_file dir n ".json") "json" (contact_dict (PStr n) a p) w with
    | (Ok _, w') =>
        snd (write_file (contact_file dir n ".yaml") "yaml" (contact_dict (PStr n) a p) w')
    | (_, w') => w'
    end.
Proof.
  unfold save_contact_details, contact_file.
  cbn [for_each_io contact_formats py_replace_spaces Contact_to_dict dict_display _name
       _address _phone_number].
  fold (contact_dict (PStr n) a p).
  destruct (write_file _ "json" _ w) as [[u|e|] w']; cbn [snd]; try reflexivity.
  destruct (write_file _ "yaml" _ w') as [[u'|e|] w'']; reflexivity.
Qed.

Lemma load_fields_contact_dict (self : ContactObject) (n a p : pyobj) :
  load_fields self (contact_dict n a p) =
    Ok {| _name := n; _address := a; _phone_number := p |}.
Proof. reflexivity. Qed.

Lemma load_contact_details_json (self : ContactObject) (file_path text : string)
    (d : pyobj) (w : world) :
  snd (path_splitext file_path) = ".json" ->
  files w !! file_path = Some text ->
  search_cache (codec_registry w) !! normalizestring "json" = Some json_codec ->
  json_loads (universal_newlines text) = Ok d ->
  fst (load_contact_details self file_path w) = load_fields self d.
Proof.
  intros Hext Hfile Hcache Hloads. unfold load_contact_details.
  destruct (path_splitext file_path) as [file_name file_extension]. cbn [snd] in Hext.
  subst file_extension. cbn [fold_left contact_formats].
  destruct (decide (".json" = ".json")) as [_|N]; [|contradiction].
  destruct (decide (".json" = ".yaml")) as [E|_]; [discriminate E|].
  destruct (decide ("json" = EmptyString)) as [E|_]; [discriminate E|].
  unfold read_file, codecs_decode. rewrite Hfile, (lookup_hit "json" _ _ eq_refl Hcache).
  cbn [decode json_codec]. unfold json_decode. rewrite Hloads. reflexivity.
Qed.

End AddressBookFacts.

(** X9. A directory entry whose name ends with [json] but whose path has no
    supported extension stops the address book from loading: [AddressBook]
    raises [AddressBookValueError] for it, whatever the entries after it. *)
Theorem AddressBook_init_stray_file `{PyRuntime} `{OsPath} (directory : string)
    (before after : list DirEntry) (e : DirEntry) (loaded : list ContactObject)
    (w : world) :
  fst (reload_contacts before w) = Ok loaded ->
  is_contact_file e = true ->
  supported_extension (snd (path_splitext (entry_path e))) = false ->
  fst (AddressBook_init directory true (before ++ e :: after) w) =
    AddressBookValueError
      (unsupported_file_message (snd (path_splitext (entry_path e)))).
Proof.
  intros Hbefore He Hext. unfold AddressBook_init. cbn [negb].
  rewrite reload_contacts_unfold in *. rewrite for_each_io_app.
  destruct (for_each_io reload_step before [] w) as [res w1]. cbn [fst] in Hbefore.
  subst res. cbn [for_each_io]. unfold reload_step at 1. fold (is_contact_file e).
  rewrite He. unfold Contact_init.
  rewrite (load_contact_details_unsupported _ _ _ Hext). reflexivity.
Qed.

Lemma AddressBook_init_stray_file_witness :
  fst (AddressBook_init "contacts" true
         ([] ++ {| entry_name := ".json"; entry_path := "contacts/.json";
                   entry_is_file := true |} :: [])
         {| codec_registry := fresh_registry; files := ∅ |}) =
    AddressBookValueError
      "file type  is not supported. Supported filetypes are: {'json': '.json', 'yaml': '.yaml'}".
Proof.
  exact (AddressBook_init_stray_file "contacts" []  []
           {| entry_name := ".json"; entry_path := "contacts/.json"; entry_is_file := true |}
           [] {| codec_registry := fresh_registry; files := ∅ |}
           eq_refl eq_refl eq_refl).
Defined.


(** X11. [reload_contacts] writes no file, and when it returns it holds one
    contact for each entry it loads; each of them registered the four
    resolvers once more. *)
Theorem reload_contacts_effects `{PyRuntime} `{OsPath} (entries : list DirEntry)
    (w : world) :
  files (snd (reload_contacts entries w)) = files w
  /\ forall contacts : list ContactObject,
       fst (reload_contacts entries w) = Ok contacts ->
       length contacts = length (filter (fun e => is_contact_file e = true) entries)
       /\ search_path (codec_registry (snd (reload_contacts entries w))) =
            search_path (codec_registry w)
              ++ concat (replicate (length contacts) own_resolvers).
Proof.
  rewrite reload_contacts_unfold.
  destruct (reload_loop_effects entries [] w) as [Hf Hp]. split; [exact Hf|].
  intros contacts Hc. destruct (Hp contacts Hc) as [Hlen Hpath].
  cbn [length] in *. rewrite Nat.sub_0_r in Hpath. auto.
Qed.

(** X12. A contact saved over its [.json] file is the contact that
    [load_contact_details] reads from it, whatever becomes of the [.yaml]
    copy.  No file but these two is touched. *)
Theorem save_then_load_contact `{PyRuntime} `{OsPath} (w : world) (dir n : string)
    (a p : pyobj) (text : string) :
  is_Some (files w !! contact_file dir n ".json") ->
  fst (codecs_lookup "json" (codec_registry w)) = Ok json_codec ->
  json_dumps (PDict [(PStr n, PDict [(PStr "address", a); (PStr "phone_number", p)])]) =
    Ok text ->
  json_loads (universal_newlines text) =
    Ok (PDict [(PStr n, PDict [(PStr "address", a); (PStr "phone_number", p)])]) ->
  snd (path_splitext (contact_file dir n ".json")) = ".json" ->
  contact_file dir n ".json" <> contact_file dir n ".yaml" ->
  files (snd (save_contact_details
                {| _name := PStr n; _address := a; _phone_number := p |} dir w))
    !! contact_file dir n ".json" = Some text
  /\ (forall other : string,
        other <> contact_file dir n ".json" -> other <> contact_file dir n ".yaml" ->
        files (snd (save_contact_details
                      {| _name := PStr n; _address := a; _phone_number := p |} dir w))
          !! other = files w !! other)
  /\ fst (load_contact_details blank_contact (contact_file dir n ".json")
            (snd (Contact_init PNone PNone PNone
                    (snd (save_contact_details
                            {| _name := PStr n; _address := a; _phone_number := p |}
                            dir w))))) =
       Ok {| _name := PStr n; _address := a; _phone_number := p |}.
Proof.
  intros _ Hlookup Hdumps Hloads Hext Hpaths.
  rewrite save_contact_details_world.
  change (PDict [(PStr n, PDict [(PStr "address", a); (PStr "phone_number", p)])])
    with (contact_dict (PStr n) a p) in *.
  set (d := contact_dict (PStr n) a p) in *.
  set (jp := contact_file dir n ".json") in *.
  set (yp := contact_file dir n ".yaml") in *.
  pose proof (lookup_caches _ _ _ Hlookup) as Hcached.
  pose proof (write_file_registry jp "json" d w) as Hreg.
  assert (Hwrite : fst (write_file jp "json" d w) = Ok ()
                   /\ files (snd (write_file jp "json" d w)) !! jp = Some text).
  { unfold write_file, codecs_encode.
    destruct (codecs_lookup "json" (codec_registry w)) as [res r1].
    cbn [fst] in Hlookup. subst res. cbn [encode json_codec]. unfold json_encode.
    rewrite Hdumps. cbn. split; [reflexivity | apply lookup_insert_eq]. }
  pose proof (fun other => write_file_other jp "json" other d w) as Hother.
  destruct (write_file jp "json" d w) as [res w1]. cbn [fst snd] in *.
  destruct Hwrite as [-> Hfile].
  pose proof (write_file_registry yp "yaml" d w1) as Hreg2.
  pose proof (fun other => write_file_other yp "yaml" other d w1) as Hother2.
  set (w2 := snd (write_file yp "yaml" d w1)) in *.
  assert (Hfile2 : files w2 !! jp = Some text) by (rewrite Hother2; auto).
  split; [exact Hfile2|]. split.
  - intros other Hj Hy. rewrite Hother2, Hother by assumption. reflexivity.
  - unfold Contact_init. cbn [snd].
    rewrite (load_contact_details_json _ _ text d); try assumption.
    + apply load_fields_contact_dict.
    + cbn [codec_registry]. rewrite register_codecs_cache, Hreg2.
      apply lookup_keeps_cached. rewrite Hreg. exact Hcached.
Qed.

Lemma reload_contacts_effects_witness :
  files (snd (reload_contacts
                [{| entry_name := "Bob.json"; entry_path := "contacts/Bob.json";
                    entry_is_file := true |};
                 {| entry_name := "Bob.yaml"; entry_path := "contacts/Bob.yaml";
                    entry_is_file := true |}]
                {| codec_registry := fresh_registry;
                   files := {["contacts/Bob.json" := contact_json bob]} |})) =
    {["contacts/Bob.json" := contact_json bob]}
  /\ length [contact_object bob] = 1
  /\ search_path (codec_registry (snd (reload_contacts
                [{| entry_name := "Bob.json"; entry_path := "contacts/Bob.json";
                    entry_is_file := true |};
                 {| entry_name := "Bob.yaml"; entry_path := "contacts/Bob.yaml";
                    entry_is_file := true |}]
                {| codec_registry := fresh_registry;
                   files := {["contacts/Bob.json" := contact_json bob]} |}))) =
       [] ++ concat (replicate 1 own_resolvers).
Proof.
  destruct (reload_contacts_effects
              [{| entry_name := "Bob.json"; entry_path := "contacts/Bob.json";
                  entry_is_file := true |};
               {| entry_name := "Bob.yaml"; entry_path := "contacts/Bob.yaml";
                  entry_is_file := true |}]
              {| codec_registry := fresh_registry;
                 files := {["contacts/Bob.json" := contact_json bob]} |}) as [Hf Hc].
  split; [exact Hf|].
  assert (Hok : fst (reload_contacts
                [{| entry_name := "Bob.json"; entry_path := "contacts/Bob.json";
                    entry_is_file := true |};
                 {| entry_name := "Bob.yaml"; entry_path := "contacts/Bob.yaml";
                    entry_is_file := true |}]
                {| codec_registry := fresh_registry;
                   files := {["contacts/Bob.json" := contact_json bob]} |}) =
                Ok [contact_object bob]) by (vm_compute; reflexivity).
  exact (Hc _ Hok).
Defined.

Lemma save_then_load_contact_witness :
  fst (load_contact_details blank_contact (contact_file "contacts" "Bob Lee" ".json")
         (snd (Contact_init PNone PNone PNone
                 (snd (save_contact_details
                         {| _name := PStr "Bob Lee"; _address := PStr "2 High St";
                            _phone_number := PNone |}
                         "contacts"
                         {| codec_registry := register_codecs fresh_registry;
                            files := {["contacts/Bob_Lee.json" := "{}"]} |}))))) =
    Ok {| _name := PStr "Bob Lee"; _address := PStr "2 High St"; _phone_number := PNone |}.
Proof.
  assert (Hfile : is_Some (files {| codec_registry := register_codecs fresh_registry;
                                    files := {["contacts/Bob_Lee.json" := "{}"]} |}
                             !! contact_file "contacts" "Bob Lee" ".json"))
    by (eexists; vm_compute; reflexivity).
  assert (Hpaths : contact_file "contacts" "Bob Lee" ".json"
                   <> contact_file "contacts" "Bob Lee" ".yaml")
    by (vm_compute; discriminate).
  assert (Hlookup : fst (codecs_lookup "json"
                            (codec_registry
                               {| codec_registry := register_codecs fresh_registry;
                                  files := {["contacts/Bob_Lee.json" := "{}"]} |})) =
                    Ok json_codec)
    by (apply registered_lookup; reflexivity).
  assert (Hjson : exists text : string,
             json_dumps (PDict [(PStr "Bob Lee",
                                 PDict [(PStr "address", PStr "2 High St");
                                        (PStr "phone_number", PNone)])]) = Ok text
             /\ json_loads (universal_newlines text) =
                  Ok (PDict [(PStr "Bob Lee",
                              PDict [(PStr "address", PStr "2 High St");
                                     (PStr "phone_number", PNone)])]))
    by (eexists; split; vm_compute; reflexivity).
  destruct Hjson as (text & Hdumps & Hloads).
  assert (Hext : snd (path_splitext (contact_file "contacts" "Bob Lee" ".json")) = ".json")
    by (vm_compute; reflexivity).
  destruct (save_then_load_contact _ "contacts" "Bob Lee" (PStr "2 High St") PNone text
              Hfile Hlookup Hdumps Hloads Hext Hpaths) as (_ & _ & Hload).
  exact Hload.
Defined.

(** ** Names and file names *)

Lemma join_cons_char (sep : string) (c : ascii) (f : string) (r : list string) :
  join sep (String c f :: r) = String c (join sep (f :: r)).
Proof. destruct r; reflexivity. Qed.

Lemma str_replace_spaces (s : string) :
  str_replace " " "_" s = spaces_to_underscores s.
Proof.
  unfold str_replace, str_split.
  induction s as [|c s IH]; [reflexivity|].
  cbn [split_go String.prefix spaces_to_underscores String.length Nat.sub].
  destruct (split_go " " 0 s) as [f r].
  destruct (ascii_dec " " c) as [<-|Hc].
  - rewrite prefix_nil. cbn [Ascii.eqb Bool.eqb]. rewrite <- IH. reflexivity.
  - assert (Hne : Ascii.eqb c " " = false)
      by (apply Ascii.eqb_neq; congruence).
    rewrite Hne, join_cons_char, IH. reflexivity.
Qed.

(** X13. The file of a contact is named after its name with an underscore in
    place of each space, so two names that differ only there are saved to the
    same files. *)
Theorem contact_files_collide `{OsPath} (directory n1 n2 extension : string) :
  spaces_to_underscores n1 = spaces_to_underscores n2 ->
  contact_file directory n1 extension = contact_file directory n2 extension
  /\ contact_file directory n1 extension =
       path_join directory (spaces_to_underscores n1 +:+ extension).
Proof.
  intros Hsame. unfold contact_file. rewrite !str_replace_spaces, Hsame. auto.
Qed.

Lemma contact_files_collide_witness :
  contact_file "contacts" "Ann Lee" ".json" = contact_file "contacts" "Ann_Lee" ".json"
  /\ contact_file "contacts" "Ann Lee" ".json" =
       path_join "contacts" (spaces_to_underscores "Ann Lee" +:+ ".json").
Proof. apply (contact_files_collide "contacts" "Ann Lee" "Ann_Lee" ".json"). reflexivity. Defined.

(** ** The exports of the address book *)

Lemma html_table_encode_objects `{PyRuntime} (os : list ContactObject) :
  Forall (fun o => printable o = true) os ->
  html_table_encode (PList (map object_dict os)) =
    Ok (html_table_header +:+ rows_html (map rendered os) +:+ "</table>",
        String.length (html_table_header +:+ rows_html (map rendered os) +:+ "</table>")).
Proof.
  intros Hos. unfold html_table_encode. cbn [py_iter mbind outcome_bind].
  match goal with |- context [for_each ?f (map object_dict os) _] => set (body := f) end.
  assert (Hbody : forall acc o, printable o = true ->
            body acc (object_dict o) = Ok (acc +:+ row_html (rendered o))).
  { intros acc [n a p]. unfold printable. cbn [_name _address _phone_number].
    intros Hp. apply andb_true_iff in Hp as [Hp Hph]. apply andb_true_iff in Hp as [Hn Ha].
    destruct n; try discriminate Hn; destruct a; try discriminate Ha;
      destruct p; try discriminate Hph; reflexivity. }
  assert (Hloop : forall acc,
    for_each body (map object_dict os) acc = Ok (acc +:+ rows_html (map rendered os))).
  { clearbody body. induction Hos as [|o os Ho Hos IH]; intros acc.
    - cbn. rewrite append_nil_r. reflexivity.
    - cbn [map for_each rows_html]. rewrite (Hbody _ _ Ho). cbn [mbind outcome_bind].
      rewrite IH, append_assoc. reflexivity. }
  rewrite Hloop. cbn [mbind outcome_bind]. rewrite append_assoc. reflexivity.
Qed.



Section Exports.
Context `{RT : PyRuntime} `{OS : OsPath}.

Lemma write_file_ok (file_path encoding : string) (obj : pyobj) (c : CodecInfo)
    (text : string) (n : nat) (w : world) :
  fst (codecs_lookup encoding (codec_registry w)) = Ok c ->
  encode c obj = Ok (text, n) ->
  fst (write_file file_path encoding obj w) = Ok ()
  /\ files (snd (write_file file_path encoding obj w)) !! file_path = Some text.
Proof.
  intros Hlookup Henc. unfold write_file, codecs_encode.
  destruct (codecs_lookup encoding (codec_registry w)) as [res r1].
  cbn [fst] in Hlookup. subst res. rewrite Henc. cbn.
  split; [reflexivity | apply lookup_insert_eq].
Qed.

Lemma write_file_raise (file_path encoding : string) (obj : pyobj) (c : CodecInfo)
    (e : exn) (w : world) :
  fst (codecs_lookup encoding (codec_registry w)) = Ok c ->
  encode c obj = Raise e ->
  fst (write_file file_path encoding obj w) =
    Raise (wrap_codec_error "encoding" encoding e)
  /\ files (snd (write_file file_path encoding obj w)) !! file_path = Some EmptyString.
Proof.
  intros Hlookup Henc. unfold write_file, codecs_encode.
  destruct (codecs_lookup encoding (codec_registry w)) as [res r1].
  cbn [fst] in Hlookup. subst res. rewrite Henc. cbn.
  split; [reflexivity | apply lookup_insert_eq].
Qed.

Lemma AddressBook_to_dict_objects (dir : string) (os : list ContactObject) :
  Forall (fun o => printable o = true) os ->
  AddressBook_to_dict {| directory := dir; all_contacts := os |} =
    Ok (PList (map object_dict os)).
Proof.
  intros Hos. unfold AddressBook_to_dict. cbn [all_contacts].
  match goal with |- context [for_each ?f os _] => set (body := f) end.
  assert (Hbody : forall acc o, printable o = true ->
            body acc o = Ok (acc ++ [object_dict o])).
  { intros acc [n a p] Ho. unfold printable in Ho. apply andb_true_iff in Ho as [Ho _].
    apply andb_true_iff in Ho as [Hn _]. cbn [_name] in Hn.
    destruct n; try discriminate Hn; reflexivity. }
  assert (Hloop : forall acc, for_each body os acc = Ok (acc ++ map object_dict os)).
  { clearbody body. induction Hos as [|o os Ho Hos IH]; intros acc.
    - cbn. rewrite app_nil_r. reflexivity.
    - cbn [for_each map]. rewrite (Hbody _ _ Ho). cbn [mbind outcome_bind].
      rewrite IH, <- app_assoc. reflexivity. }
  rewrite Hloop. reflexivity.
Qed.

Lemma save_address_book_steps (dir : string) (os : list ContactObject) (data : pyobj)
    (w : world) :
  AddressBook_to_dict {| directory := dir; all_contacts := os |} = Ok data ->
  save_address_book {| directory := dir; all_contacts := os |} w =
    match write_file (book_file dir ".html") "html_table" data w with
    | (Ok _, w1) =>
        match write_file (book_file dir ".txt") "formatted_text" data w1 with
        | (Ok _, w2) => (Ok [book_file dir ".html"; book_file dir ".txt"], w2)
        | (Raise e, w2) => (Raise e, w2)
        | (Unmodelled, w2) => (Unmodelled, w2)
        end
    | (Raise e, w1) => (Raise e, w1)
    | (Unmodelled, w1) => (Unmodelled, w1)
    end.
Proof.
  intros Hdata. unfold save_address_book, book_file.
  cbn [for_each_io address_book_formats directory]. rewrite Hdata.
  destruct (write_file _ "html_table" data w) as [[u|e|] w1]; try reflexivity.
  destruct (write_file _ "formatted_text" data w1) as [[u'|e|] w2]; reflexivity.
Qed.

End Exports.

(** X15. [save_address_book] writes the table of the contacts to
    [address_book.html] and their records to [address_book.txt], returns the
    two paths in this order and touches no other file. *)
Theorem save_address_book_exports `{PyRuntime} `{OsPath} (w : world) (dir : string)
    (cs : list contact) :
  fst (codecs_lookup "html_table" (codec_registry w)) = Ok html_table_codec ->
  fst (codecs_lookup "formatted_text" (codec_registry w)) = Ok formatted_text_codec ->
  book_file dir ".html" <> book_file dir ".txt" ->
  fst (save_address_book {| directory := dir; all_contacts := map contact_object cs |} w) =
    Ok [book_file dir ".html"; book_file dir ".txt"]
  /\ files (snd (save_address_book
                   {| directory := dir; all_contacts := map contact_object cs |} w))
       !! book_file dir ".html" =
       Some (html_table_header +:+ rows_html cs +:+ "</table>")
  /\ files (snd (save_address_book
                   {| directory := dir; all_contacts := map contact_object cs |} w))
       !! book_file dir ".txt" = Some (records_text cs)
  /\ forall other : string,
       other <> book_file dir ".html" -> other <> book_file dir ".txt" ->
       files (snd (save_address_book
                     {| directory := dir; all_contacts := map contact_object cs |} w))
         !! other = files w !! other.
Proof.
  intros Hhtml Htext Hpaths.
  assert (Hdata : AddressBook_to_dict
                    {| directory := dir; all_contacts := map contact_object cs |} =
                  Ok (canonical cs)).
  { rewrite AddressBook_to_dict_objects.
    - rewrite map_map. reflexivity.
    - apply Forall_map. apply Forall_forall. intros c _. reflexivity. }
  rewrite (save_address_book_steps _ _ _ _ Hdata).
  set (hp := book_file dir ".html") in *. set (tp := book_file dir ".txt") in *.
  destruct (write_file_ok hp "html_table" (canonical cs) html_table_codec _ _ w Hhtml
              (html_table_encode_canonical cs)) as [Hok1 Hfile1].
  pose proof (write_file_registry hp "html_table" (canonical cs) w) as Hreg.
  pose proof (fun other => write_file_other hp "html_table" other (canonical cs) w) as Hother1.
  destruct (write_file hp "html_table" (canonical cs) w) as [res w1].
  cbn [fst snd] in *. subst res.
  assert (Htext1 : fst (codecs_lookup "formatted_text" (codec_registry w1)) =
                   Ok formatted_text_codec)
    by (rewrite Hreg, lookup_stable; exact Htext).
  destruct (write_file_ok tp "formatted_text" (canonical cs) formatted_text_codec _ _ w1
              Htext1 (formatted_text_encode_canonical cs)) as [Hok2 Hfile2].
  pose proof (fun other => write_file_other tp "formatted_text" other (canonical cs) w1)
    as Hother2.
  destruct (write_file tp "formatted_text" (canonical cs) w1) as [res w2].
  cbn [fst snd] in *. subst res. cbn [fst snd].
  split; [reflexivity|]. split; [|split].
  - rewrite Hother2 by exact Hpaths. exact Hfile1.
  - exact Hfile2.
  - intros other Hh Ht. rewrite Hother2, Hother1 by assumption. reflexivity.
Qed.

(** X16. One contact whose address or phone number is [None] spoils the text
    export: [save_address_book] writes the table, with the text [None] in
    it, then raises the [TypeError] of the delimited-text encoder and leaves
    [address_book.txt] empty. *)
Theorem save_address_book_None_field `{PyRuntime} `{OsPath} (w : world) (dir : string)
    (before : list contact) (bad : ContactObject) (n : string)
    (after : list ContactObject) :
  fst (codecs_lookup "html_table" (codec_registry w)) = Ok html_table_codec ->
  fst (codecs_lookup "formatted_text" (codec_registry w)) = Ok formatted_text_codec ->
  book_file dir ".html" <> book_file dir ".txt" ->
  _name bad = PStr n ->
  printable bad = true ->
  _address bad = PNone \/ _phone_number bad = PNone ->
  Forall (fun o => printable o = true) after ->
  fst (save_address_book
         {| directory := dir;
            all_contacts := map contact_object before ++ bad :: after |} w) =
    Raise (wrap_codec_error "encoding" "formatted_text"
             (Exn "TypeError"
                ("can only concatenate str (not " +:+ dquote +:+ "NoneType" +:+ dquote
                 +:+ ") to str")))
  /\ files (snd (save_address_book
                   {| directory := dir;
                      all_contacts := map contact_object before ++ bad :: after |} w))
       !! book_file dir ".html" =
       Some (html_table_header
             +:+ rows_html (map rendered (map contact_object before ++ bad :: after))
             +:+ "</table>")
  /\ files (snd (save_address_book
                   {| directory := dir;
                      all_contacts := map contact_object before ++ bad :: after |} w))
       !! book_file dir ".txt" = Some EmptyString.
Proof.
  intros Hhtml Htext Hpaths Hname Hbad Hnone Hafter.
  set (os := map contact_object before ++ bad :: after).
  assert (Hos : Forall (fun o => printable o = true) os).
  { unfold os. apply Forall_app. split.
    - apply Forall_map. apply Forall_forall. intros c _. reflexivity.
    - apply List.Forall_cons; assumption. }
  rewrite (save_address_book_steps _ _ _ _ (AddressBook_to_dict_objects dir os Hos)).
  set (data := PList (map object_dict os)).
  set (hp := book_file dir ".html") in *. set (tp := book_file dir ".txt") in *.
  destruct (write_file_ok hp "html_table" data html_table_codec _ _ w Hhtml
              (html_table_encode_objects os Hos)) as [Hok1 Hfile1].
  pose proof (write_file_registry hp "html_table" data w) as Hreg.
  destruct (write_file hp "html_table" data w) as [res w1].
  cbn [fst snd] in *. subst res.
  assert (Htext1 : fst (codecs_lookup "formatted_text" (codec_registry w1)) =
                   Ok formatted_text_codec)
    by (rewrite Hreg, lookup_stable; exact Htext).
  assert (Henc : formatted_text_encode data =
                 TypeError ("can only concatenate str (not " +:+ dquote +:+ "NoneType"
                            +:+ dquote +:+ ") to str")).
  { unfold data, os. rewrite map_app, map_map. cbn [map].
    change (map (fun x => object_dict (contact_object x)) before) with (map to_dict before).
    unfold object_dict at 1. rewrite Hname.
    apply formatted_text_encode_stops.
    unfold printable in Hbad. apply andb_true_iff in Hbad as [Hbad Hp].
    apply andb_true_iff in Hbad as [_ Ha].
    destruct (_address bad) as [|s| |]; try discriminate Ha; [left; reflexivity|].
    right. split; [eauto|]. destruct Hnone as [Hn|Hn]; [discriminate Hn | exact Hn]. }
  destruct (write_file_raise tp "formatted_text" data formatted_text_codec _ w1
              Htext1 Henc) as [Hraise Hfile2].
  pose proof (fun other => write_file_other tp "formatted_text" other data w1) as Hother2.
  destruct (write_file tp "formatted_text" data w1) as [res w2].
  cbn [fst snd] in *. subst res. cbn [fst snd].
  split; [reflexivity|]. split; [|exact Hfile2].
  rewrite Hother2 by exact Hpaths. exact Hfile1.
Qed.

(** X17. [load_contact_details] keeps the last item of the decoded dict: its key
    is the name, and a field its value lacks is [None].  A dict with no item
    leaves the contact as it was. *)
Theorem load_fields_last_item (self : ContactObject) (items : list (pyobj * pyobj))
    (key : pyobj) (value : list (pyobj * pyobj)) :
  Forall (fun kv => exists d, snd kv = PDict d) items ->
  load_fields self (PDict (items ++ [(key, PDict value)])) = Ok (item_fields key value)
  /\ load_fields self (PDict []) = Ok self.
Proof.
  intros Hitems. split; [|reflexivity].
  unfold load_fields. cbn [py_items mbind outcome_bind].
  match goal with |- context [for_each ?f _ _] => set (body := f) end.
  assert (Hloop : forall s, exists s', for_each body items s = Ok s').
  { induction Hitems as [|[k v] rest [d Hd] Hrest IH]; intros s; [eexists; reflexivity|].
    cbn [snd] in Hd. subst v. cbn [for_each]. apply IH. }
  rewrite for_each_app. destruct (Hloop self) as [s' ->]. reflexivity.
Qed.

Lemma load_fields_last_item_witness :
  load_fields blank_contact
    (PDict ([(PStr "Ann", PDict [(PStr "address", PStr "1 Main St")])]
            ++ [(PStr "Bob", PDict [(PStr "phone_number", PStr "555-2222")])])) =
    Ok {| _name := PStr "Bob"; _address := PNone; _phone_number := PStr "555-2222" |}.
Proof.
  apply (load_fields_last_item blank_contact
           [(PStr "Ann", PDict [(PStr "address", PStr "1 Main St")])]
           (PStr "Bob") [(PStr "phone_number", PStr "555-2222")]).
  repeat constructor; eexists; reflexivity.
Defined.

(** X18. A contact whose name is not a string cannot be created: the name has
    no [replace], so [create_contact] raises [AttributeError] before any file
    is opened. *)
Theorem create_contact_name_not_str `{PyRuntime} `{OsPath} (self : AddressBookObject)
    (name address phone_number : pyobj) (entries : list DirEntry) (w : world) :
  (forall s : string, name <> PStr s) ->
  create_contact self name address phone_number entries w =
    (AttributeError name "replace",
     {| codec_registry := register_codecs (codec_registry w); files := files w |}).
Proof.
  intros Hname. unfold create_contact, Contact_init, save_contact_details.
  cbn [for_each_io contact_formats _name].
  destruct name as [|s| |]; try reflexivity. destruct (Hname s eq_refl).
Qed.

Lemma create_contact_name_not_str_witness :
  create_contact {| directory := "contacts"; all_contacts := [] |} PNone
    (PStr "2 High St") (PStr "555-2222") []
    {| codec_registry := fresh_registry; files := ∅ |} =
    (Raise (Exn "AttributeError" "'NoneType' object has no attribute 'replace'"),
     {| codec_registry := register_codecs fresh_registry; files := ∅ |}).
Proof.
  apply (create_contact_name_not_str {| directory := "contacts"; all_contacts := [] |} PNone
           (PStr "2 High St") (PStr "555-2222") []
           {| codec_registry := fresh_registry; files := ∅ |}).
  intros s. discriminate.
Defined.

Lemma save_address_book_exports_witness :
  fst (save_address_book
         {| directory := "contacts"; all_contacts := map contact_object [alice; bob] |}
         {| codec_registry := register_codecs fresh_registry; files := ∅ |}) =
    Ok [book_file "contacts" ".html"; book_file "contacts" ".txt"]
  /\ files (snd (save_address_book
                   {| directory := "contacts";
                      all_contacts := map contact_object [alice; bob] |}
                   {| codec_registry := register_codecs fresh_registry; files := ∅ |}))
       !! book_file "contacts" ".txt" = Some (records_text [alice; bob]).
Proof.
  assert (Hhtml : fst (codecs_lookup "html_table"
                         (codec_registry
                            {| codec_registry := register_codecs fresh_registry;
                               files := ∅ |})) = Ok html_table_codec)
    by (apply registered_lookup; reflexivity).
  assert (Htext : fst (codecs_lookup "formatted_text"
                         (codec_registry
                            {| codec_registry := register_codecs fresh_registry;
                               files := ∅ |})) = Ok formatted_text_codec)
    by (apply registered_lookup; reflexivity).
  assert (Hpaths : book_file "contacts" ".html" <> book_file "contacts" ".txt")
    by (vm_compute; discriminate).
  destruct (save_address_book_exports _ "contacts" [alice; bob] Hhtml Htext Hpaths)
    as (Hok & _ & Hfile & _).
  split; [exact Hok | exact Hfile].
Defined.

Lemma save_address_book_None_field_witness :
  fst (save_address_book
         {| directory := "contacts";
            all_contacts :=
              map contact_object [alice]
                ++ {| _name := PStr "Bob"; _address := PStr "2 High St";
                      _phone_number := PNone |} :: [] |}
         {| codec_registry := register_codecs fresh_registry; files := ∅ |}) =
    Raise (Exn "TypeError"
             ("can only concatenate str (not " +:+ dquote +:+ "NoneType" +:+ dquote
              +:+ ") to str"))
  /\ files (snd (save_address_book
         {| directory := "contacts";
            all_contacts :=
              map contact_object [alice]
                ++ {| _name := PStr "Bob"; _address := PStr "2 High St";
                      _phone_number := PNone |} :: [] |}
         {| codec_registry := register_codecs fresh_registry; files := ∅ |}))
       !! book_file "contacts" ".txt" = Some EmptyString.
Proof.
  assert (Hhtml : fst (codecs_lookup "html_table"
                         (codec_registry
                            {| codec_registry := register_codecs fresh_registry;
                               files := ∅ |})) = Ok html_table_codec)
    by (apply registered_lookup; reflexivity).
  assert (Htext : fst (codecs_lookup "formatted_text"
                         (codec_registry
                            {| codec_registry := register_codecs fresh_registry;
                               files := ∅ |})) = Ok formatted_text_codec)
    by (apply registered_lookup; reflexivity).
  assert (Hpaths : book_file "contacts" ".html" <> book_file "contacts" ".txt")
    by (vm_compute; discriminate).
  destruct (save_address_book_None_field _ "contacts" [alice]
              {| _name := PStr "Bob"; _address := PStr "2 High St"; _phone_number := PNone |}
              "Bob" [] Hhtml Htext Hpaths eq_refl eq_refl (or_intror eq_refl)
              (List.Forall_nil _))
    as (Hraise & _ & Hfile).
  split; [exact Hraise | exact Hfile].
Defined.

(** X19. [AddressBook] on a path that is no directory raises
    [AddressBookValueError] and does nothing else.  On a directory it writes
    no file, holds one contact for each entry it loads, and leaves the four
    resolvers registered once for each contact and once more for itself. *)
Theorem AddressBook_init_effects `{PyRuntime} `{OsPath} (dir : string) (isdir : bool)
    (entries : list DirEntry) (w : world) :
  (isdir = false ->
   AddressBook_init dir isdir entries w =
     (AddressBookValueError "Provide a valid directory path", w))
  /\ files (snd (AddressBook_init dir isdir entries w)) = files w
  /\ forall book : AddressBookObject,
       fst (AddressBook_init dir isdir entries w) = Ok book ->
       isdir = true
       /\ directory book = dir
       /\ length (all_contacts book) =
            length (filter (fun e => is_contact_file e = true) entries)
       /\ search_path (codec_registry (snd (AddressBook_init dir isdir entries w))) =
            search_path (codec_registry w)
              ++ concat (replicate (S (length (all_contacts book))) own_resolvers).
Proof.
  unfold AddressBook_init. destruct isdir; cbn [negb].
  - split; [discriminate|]. rewrite reload_contacts_unfold.
    destruct (reload_loop_effects entries [] w) as [Hf Hp].
    destruct (for_each_io reload_step entries [] w) as [[contacts|e|] w'];
      cbn [fst snd files] in *; (split; [exact Hf|]); try discriminate.
    intros book [= <-]. cbn [directory all_contacts codec_registry].
    destruct (Hp contacts eq_refl) as [Hlen Hpath]. cbn [length] in *.
    rewrite Nat.sub_0_r in Hpath.
    repeat split; [exact Hlen|].
    rewrite register_codecs_path, Hpath, <- app_assoc, concat_replicate_snoc.
    reflexivity.
  - split; [reflexivity|]. split; [reflexivity|]. discriminate.
Qed.

Lemma AddressBook_init_effects_witness :
  AddressBook_init "nowhere" false [] {| codec_registry := fresh_registry; files := ∅ |} =
    (AddressBookValueError "Provide a valid directory path",
     {| codec_registry := fresh_registry; files := ∅ |})
  /\ length [contact_object bob] = 1.
Proof.
  destruct (AddressBook_init_effects "nowhere" false []
              {| codec_registry := fresh_registry; files := ∅ |}) as (Hbad & _ & _).
  split; [exact (Hbad eq_refl)|].
  destruct (AddressBook_init_effects "contacts" true
              [{| entry_name := "Bob.json"; entry_path := "contacts/Bob.json";
                  entry_is_file := true |}]
              {| codec_registry := fresh_registry;
                 files := {["contacts/Bob.json" := contact_json bob]} |}) as (_ & _ & Hok).
  assert (Hbook : fst (AddressBook_init "contacts" true
              [{| entry_name := "Bob.json"; entry_path := "contacts/Bob.json";
                  entry_is_file := true |}]
              {| codec_registry := fresh_registry;
                 files := {["contacts/Bob.json" := contact_json bob]} |}) =
            Ok {| directory := "contacts"; all_contacts := [contact_object bob] |})
    by (vm_compute; reflexivity).
  destruct (Hok _ Hbook) as (_ & _ & Hlen & _). exact Hlen.
Defined.
